(** * TaskManagerApp: the task store and its controller

    A shallow embedding of [src/main.py]: the [TaskDatabase] helper (four
    parameterised SQL statements over one SQLite table), the [TaskItem] row
    widget and the [TaskManagerApp] controller, followed by the properties
    the specification states about them.

    Modelling conventions.
    - A Python [str] is a sequence of Unicode code points ([list N]).
    - The SQLite table [tasks] is the list of its rows in b-tree (rowid)
      order, which is the order a [SELECT] without [ORDER BY] scans it in;
      the [AUTOINCREMENT] counter kept in [sqlite_sequence] is part of the
      store.  Rowids are unbounded integers: exhausting the 64-bit rowid
      space, like a disk fault, is outside the model.
    - [CURRENT_TIMESTAMP] is an input of the statement that reads it.
    - Every method opens its own connection and commits on leaving the
      [with] block, so a method is a function from store to store. *)

From Stdlib Require Import ZArith NArith String Ascii.
From stdpp Require Import base decidable numbers list sorting.

Local Open Scope Z_scope.
Set Warnings "-clear-no-such-hyp".

(** ** Python strings *)

Definition str : Type := list N.

(** A string literal of the source (all of them are ASCII). *)
Definition py (s : string) : str :=
  (λ a, N_of_ascii a) <$> list_ascii_of_string s.

(** [str.isspace] on one code point: the code points CPython's
    [Py_UNICODE_ISSPACE] accepts. *)
Definition isspace (c : N) : bool :=
  ((0x09 <=? c) && (c <=? 0x0D) ||
   (0x1C <=? c) && (c <=? 0x20) ||
   (c =? 0x85) || (c =? 0xA0) || (c =? 0x1680) ||
   (0x2000 <=? c) && (c <=? 0x200A) ||
   (c =? 0x2028) || (c =? 0x2029) || (c =? 0x202F) ||
   (c =? 0x205F) || (c =? 0x3000))%N.

Fixpoint lstrip (s : str) : str :=
  match s with
  | c :: s' => if isspace c then lstrip s' else s
  | [] => []
  end.

Definition rstrip (s : str) : str := reverse (lstrip (reverse s)).

(** [s.strip()] *)
Definition strip (s : str) : str := rstrip (lstrip s).

(** Truthiness of a string: [not s] holds of the empty string only. *)
Definition truthy (s : str) : bool :=
  match s with [] => false | _ :: _ => true end.

(** [int(b)] and [bool(n)] *)
Definition int (b : bool) : Z := if b then 1 else 0.
Definition bool_of_int (n : Z) : bool := negb (n =? 0).

(** ** Calendar dates

    A [datetime.date] and the two ways the program writes one as text. *)

Record date : Type := mkDate { year : Z; month : Z; day : Z }.

Definition digit (n : Z) : N := Z.to_N (48 + n mod 10).

(** The decimal numeral of a natural number, without padding. *)
Fixpoint decimal_go (fuel : nat) (n : Z) : str :=
  match fuel with
  | O => []
  | S fuel' =>
      (if n <? 10 then [] else decimal_go fuel' (n / 10)) ++ [digit n]
  end.

Definition decimal (n : Z) : str := decimal_go (S (Z.to_nat (Z.log2 n))) n.

(** Padding with zeros on the left up to a width, as [%04d] and [%02d]. *)
Definition zero_pad (w : nat) (s : str) : str :=
  replicate (w - length s) 48%N ++ s.

(** [d.isoformat()], that is ["%04d-%02d-%02d"]. *)
Definition isoformat (d : date) : str :=
  zero_pad 4 (decimal (year d)) ++ py "-" ++ zero_pad 2 (decimal (month d))
  ++ py "-" ++ zero_pad 2 (decimal (day d)).

(** [d.strftime("%Y-%m-%d")]: the year in decimal, month and day on two
    digits.  C libraries differ over padding a year below 1000; the
    statements about this function ask for a year of four digits. *)
Definition strftime_Ymd (d : date) : str :=
  decimal (year d) ++ py "-" ++ zero_pad 2 (decimal (month d))
  ++ py "-" ++ zero_pad 2 (decimal (day d)).

(** ** The persistence helper *)

Module TaskDatabase.

(** One row of [tasks]; the fields are the columns of [create_table]. *)
Record Row : Type := mkRow {
  id : Z;
  title : str;
  priority : str;
  is_completed : Z;
  task_date : str;
  created_at : str
}.

(** The table in rowid order, and the largest rowid ever handed out. *)
Record Store : Type := mkStore {
  tasks : list Row;
  sqlite_sequence : Z
}.

(** [CREATE TABLE IF NOT EXISTS]: a database file that has the table keeps
    it; otherwise the table is created empty. *)
Definition create_table (file : option Store) : Store :=
  match file with
  | Some s => s
  | None => {| tasks := []; sqlite_sequence := 0 |}
  end.

Definition max_rowid (rows : list Row) : Z :=
  foldr (λ r m, Z.max (id r) m) 0 rows.

(** [INTEGER PRIMARY KEY AUTOINCREMENT]: one more than the largest rowid
    that ever existed in the table. *)
Definition next_rowid (s : Store) : Z :=
  Z.max (sqlite_sequence s) (max_rowid (tasks s)) + 1.

(** The row takes its place in the b-tree by key. *)
Fixpoint btree_insert (r : Row) (rows : list Row) : list Row :=
  match rows with
  | [] => [r]
  | x :: rows' =>
      if id r <? id x then r :: x :: rows' else x :: btree_insert r rows'
  end.

(** [INSERT INTO tasks (title, priority, task_date) VALUES (?, ?, ?)];
    the other columns take their defaults. *)
Definition add_task (title priority task_date now : str) (s : Store)
  : Store :=
  let r := {| id := next_rowid s;
              title := title;
              priority := priority;
              is_completed := 0;
              task_date := task_date;
              created_at := now |} in
  {| tasks := btree_insert r (tasks s); sqlite_sequence := id r |}.

(** [SELECT id, title, priority, is_completed FROM tasks WHERE ...]; the
    query grows a second condition for two values of [filter_type], whose
    default is ["ALL"]. *)
Definition columns (r : Row) : Z * str * str * Z :=
  (id r, title r, priority r, is_completed r).

Definition select (P : Row → Prop) `{!∀ r, Decision (P r)} (s : Store)
  : list (Z * str * str * Z) :=
  columns <$> filter P (tasks s).

Definition get_tasks (task_date0 filter_type : str) (s : Store)
  : list (Z * str * str * Z) :=
  if decide (filter_type = py "COMPLETED") then
    select (λ r, task_date r = task_date0 ∧ is_completed r = 1) s
  else if decide (filter_type = py "PENDING") then
    select (λ r, task_date r = task_date0 ∧ is_completed r = 0) s
  else
    select (λ r, task_date r = task_date0) s.

(** [UPDATE tasks SET is_completed = ? WHERE id = ?] *)
Definition set_is_completed (v : Z) (r : Row) : Row :=
  {| id := id r;
     title := title r;
     priority := priority r;
     is_completed := v;
     task_date := task_date r;
     created_at := created_at r |}.

Definition update_task (task_id : Z) (is_completed0 : bool) (s : Store)
  : Store :=
  {| tasks := (λ r, if decide (id r = task_id)
                    then set_is_completed (int is_completed0) r
                    else r) <$> tasks s;
     sqlite_sequence := sqlite_sequence s |}.

(** [DELETE FROM tasks WHERE id = ?] *)
Definition delete_task (task_id : Z) (s : Store) : Store :=
  {| tasks := filter (λ r, id r ≠ task_id) (tasks s);
     sqlite_sequence := sqlite_sequence s |}.

End TaskDatabase.

(** ** Histories of the store

    The store is only ever changed through the three mutating methods, so a
    state of the store is what a sequence of such calls leaves behind. *)

Module History.
Import TaskDatabase.

Inductive call : Type :=
| Add (title priority task_date now : str)
| Update (task_id : Z) (is_completed : bool)
| Delete (task_id : Z).

Definition step (c : call) (s : Store) : Store :=
  match c with
  | Add t p d now => add_task t p d now s
  | Update i b => update_task i b s
  | Delete i => delete_task i s
  end.

Fixpoint run (cs : list call) (s : Store) : Store :=
  match cs with
  | [] => s
  | c :: cs' => run cs' (step c s)
  end.

(** The identifiers the [Add] calls of a history hand out, oldest first. *)
Fixpoint assigned (cs : list call) (s : Store) : list Z :=
  match cs with
  | [] => []
  | Add t p d now :: cs' => next_rowid s :: assigned cs' (add_task t p d now s)
  | c :: cs' => assigned cs' (step c s)
  end.

(** A state the program can be in: some history from the freshly created
    schema leads to it. *)
Definition reachable (s : Store) : Prop :=
  ∃ cs, s = run cs (create_table None).

End History.

(** ** The row widget *)

Module TaskItem.
Import TaskDatabase.

Definition PRIORITY_COLORS : list (str * str) :=
  [ (py "Low", py "green");
    (py "Medium", py "orange");
    (py "High", py "red") ].

(** [d.get(k)] *)
Fixpoint get (d : list (str * str)) (k : str) : option str :=
  match d with
  | [] => None
  | (k', v) :: d' => if decide (k' = k) then Some v else get d' k
  end.

(** What the constructor stores: the identifier, and the label, value and
    label style of the checkbox. *)
Record t : Type := mk {
  task_id : Z;
  checkbox_label : str;
  checkbox_value : bool;
  label_color : option str;
  label_line_through : bool
}.

Definition init (task_id0 : Z) (title priority : str) (is_completed : Z) : t :=
  {| task_id := task_id0;
     checkbox_label := py "[" ++ priority ++ py "] " ++ title;
     checkbox_value := bool_of_int is_completed;
     label_color := get PRIORITY_COLORS priority;
     label_line_through := bool_of_int is_completed |}.

(** The handlers write to the store they were given and then call the
    [refresh] they were given. *)
Definition toggle {A : Type} (self : t) (refresh : Store → A) (db : Store)
  : A :=
  refresh (update_task (task_id self) (checkbox_value self) db).

Definition delete {A : Type} (self : t) (refresh : Store → A) (db : Store)
  : A :=
  refresh (delete_task (task_id self) db).

End TaskItem.

(** ** The controller *)

Module TaskManagerApp.

Record t : Type := mk {
  db : TaskDatabase.Store;
  selected_date : str;
  current_filter : str;
  task_input : str;
  priority_dropdown : str;
  tasks_column : list TaskItem.t
}.

Definition with_db (self : t) (db0 : TaskDatabase.Store) : t :=
  {| db := db0;
     selected_date := selected_date self;
     current_filter := current_filter self;
     task_input := task_input self;
     priority_dropdown := priority_dropdown self;
     tasks_column := tasks_column self |}.

Definition load_tasks (self : t) : t :=
  {| db := db self;
     selected_date := selected_date self;
     current_filter := current_filter self;
     task_input := task_input self;
     priority_dropdown := priority_dropdown self;
     tasks_column :=
       (λ '(task_id, title, priority, is_completed),
          TaskItem.init task_id title priority is_completed)
       <$> TaskDatabase.get_tasks (selected_date self) (current_filter self)
             (db self) |}.

Definition add_task (now : str) (self : t) : t :=
  let title := strip (task_input self) in
  if negb (truthy title) then self
  else
    load_tasks
      {| db := TaskDatabase.add_task title (priority_dropdown self)
                 (selected_date self) now (db self);
         selected_date := selected_date self;
         current_filter := current_filter self;
         task_input := [];
         priority_dropdown := priority_dropdown self;
         tasks_column := tasks_column self |}.

(** [["ALL", "COMPLETED", "PENDING"][index]]: a Python index counts from
    the end when negative and raises [IndexError] out of range. *)
Definition index3 (index : Z) : option str :=
  let l := [py "ALL"; py "COMPLETED"; py "PENDING"] in
  if (0 <=? index) && (index <? 3) then l !! Z.to_nat index
  else if (-3 <=? index) && (index <? 0) then l !! Z.to_nat (3 + index)
  else None.

Definition change_filter (index : Z) (self : t) : option t :=
  match index3 index with
  | Some f =>
      Some (load_tasks
              {| db := db self;
                 selected_date := selected_date self;
                 current_filter := f;
                 task_input := task_input self;
                 priority_dropdown := priority_dropdown self;
                 tasks_column := tasks_column self |})
  | None => None
  end.

(** The two handlers of a row of the list, with [load_tasks] as their
    [refresh]. *)
Definition toggle_item (item : TaskItem.t) (self : t) : t :=
  TaskItem.toggle item (λ db0, load_tasks (with_db self db0)) (db self).

Definition delete_item (item : TaskItem.t) (self : t) : t :=
  TaskItem.delete item (λ db0, load_tasks (with_db self db0)) (db self).

(** The controller together with the text of its date label. *)
Record window : Type := mk_window {
  app : t;
  date_text : str
}.

(** The constructor: the database of the file, today's date, the filter
    ["ALL"], an empty input field and the priority ["Medium"]; then the
    list is loaded. *)
Definition init (file : option TaskDatabase.Store) (today : date) : window :=
  let selected := isoformat today in
  {| app := load_tasks
              {| db := TaskDatabase.create_table file;
                 selected_date := selected;
                 current_filter := py "ALL";
                 task_input := [];
                 priority_dropdown := py "Medium";
                 tasks_column := [] |};
     date_text := selected |}.

Definition change_date (picked : date) (self : window) : window :=
  let selected := strftime_Ymd picked in
  {| app := load_tasks
              {| db := db (app self);
                 selected_date := selected;
                 current_filter := current_filter (app self);
                 task_input := task_input (app self);
                 priority_dropdown := priority_dropdown (app self);
                 tasks_column := tasks_column (app self) |};
     date_text := selected |}.

End TaskManagerApp.

Import TaskDatabase History.

(** ** What a listing shows and what the schema maintains *)

(** The identifier of a listed row (the first column of the [SELECT]). *)
Definition listed_id (x : Z * str * str * Z) : Z := x.1.1.1.

(** Every stored rowid has been recorded in [sqlite_sequence]. *)
Definition seq_covers (s : Store) : Prop :=
  Forall (λ r, id r ≤ sqlite_sequence s) (tasks s).

(** The state of a table that only the program has written to: rowids are
    positive, strictly increasing along the table and recorded in
    [sqlite_sequence], and [is_completed] holds a Python [bool]. *)
Record schema_inv (s : Store) : Prop := mk_schema_inv {
  inv_sorted : StronglySorted Z.lt (id <$> tasks s);
  inv_positive : Forall (λ r, 1 ≤ id r) (tasks s);
  inv_seq : seq_covers s;
  inv_flag : Forall (λ r, is_completed r = 0 ∨ is_completed r = 1) (tasks s)
}.

(** Two rows that differ at most in [is_completed]. *)
Definition same_task (r r' : Row) : Prop :=
  id r' = id r ∧ title r' = title r ∧ priority r' = priority r
  ∧ task_date r' = task_date r ∧ created_at r' = created_at r.

(** The example databases of the statements below. *)
Definition milk : Store :=
  add_task (py "Buy milk") (py "Medium") (py "2024-01-01") (py "t0")
    (create_table None).

Definition two_days : list call :=
  [ Add (py "Buy milk") (py "Medium") (py "2024-01-01") (py "t0");
    Add (py "Call Bob") (py "High") (py "2024-01-02") (py "t1");
    Update 1 true;
    Add (py "Pay rent") (py "Low") (py "2024-01-01") (py "t2");
    Delete 2 ].

(** ** Notions used by the further properties *)

(** A date whose year takes four digits, as every date of the picker. *)
Definition four_digit_date (d : date) : Prop :=
  1000 ≤ year d ≤ 9999 ∧ 1 ≤ month d ≤ 12 ∧ 1 ≤ day d ≤ 31.

(** The number of [Add] calls of a history. *)
Fixpoint count_adds (cs : list call) : nat :=
  match cs with
  | [] => O
  | Add _ _ _ _ :: cs' => S (count_adds cs')
  | _ :: cs' => count_adds cs'
  end.

(** A title as the controller stores it: not empty, no white space at
    either end. *)
Definition trimmed (t : str) : Prop :=
  t ≠ [] ∧ (∀ c, head t = Some c → isspace c = false)
  ∧ (∀ c, last t = Some c → isspace c = false).

(** Every stored title is as the controller stores titles. *)
Definition titles_trimmed (s : Store) : Prop :=
  Forall (λ r, trimmed (title r)) (tasks s).

(** The list on screen is the listing of the store for the selected date
    and filter. *)
Definition in_sync (self : TaskManagerApp.t) : Prop :=
  TaskManagerApp.tasks_column self
  = (λ '(task_id, title, priority, is_completed),
       TaskItem.init task_id title priority is_completed)
    <$> get_tasks (TaskManagerApp.selected_date self)
          (TaskManagerApp.current_filter self) (TaskManagerApp.db self).

(** The widget [load_tasks] builds for a listed row. *)
Definition item_of (x : Z * str * str * Z) : TaskItem.t :=
  let '(task_id, title, priority, is_completed) := x in
  TaskItem.init task_id title priority is_completed.

(** A row widget with its checkbox and strike-through set to [b]. *)
Definition with_checked (b : bool) (item : TaskItem.t) : TaskItem.t :=
  {| TaskItem.task_id := TaskItem.task_id item;
     TaskItem.checkbox_label := TaskItem.checkbox_label item;
     TaskItem.checkbox_value := b;
     TaskItem.label_color := TaskItem.label_color item;
     TaskItem.label_line_through := b |}.

(** Arithmetic of decimal digits. *)
Ltac div10 := Z.to_euclidean_division_equations; lia.

(** * Properties *)

(** ** The scenario of the specification *)

Example scenario_listed :
  get_tasks (py "2024-01-01") (py "ALL") milk
  = [(1, py "Buy milk", py "Medium", 0)].
Proof. reflexivity. Qed.

Example scenario_toggled :
  let s := update_task 1 true milk in
  get_tasks (py "2024-01-01") (py "COMPLETED") s
  = [(1, py "Buy milk", py "Medium", 1)]
  ∧ get_tasks (py "2024-01-01") (py "PENDING") s = [].
Proof. split; reflexivity. Qed.

Example two_days_store :
  tasks (run two_days (create_table None))
  = [ mkRow 1 (py "Buy milk") (py "Medium") 1 (py "2024-01-01") (py "t0");
      mkRow 3 (py "Pay rent") (py "Low") 0 (py "2024-01-01") (py "t2") ]
  ∧ sqlite_sequence (run two_days (create_table None)) = 3
  ∧ assigned two_days (create_table None) = [1; 2; 3].
Proof. repeat split; reflexivity. Qed.

(** ** Rowid assignment and insertion *)

Lemma max_rowid_ge (rows : list Row) (r : Row) :
  r ∈ rows → id r ≤ max_rowid rows.
Proof.
  induction rows as [|x rows IH]; intros Hin; [by apply not_elem_of_nil in Hin|].
  apply elem_of_cons in Hin as [->|Hin]; simpl.
  - lia.
  - specialize (IH Hin). lia.
Qed.

Lemma max_rowid_nonneg (rows : list Row) : 0 ≤ max_rowid rows.
Proof. induction rows; simpl; lia. Qed.

Lemma next_rowid_fresh (s : Store) (r : Row) :
  r ∈ tasks s → id r < next_rowid s.
Proof. intros Hin%max_rowid_ge. unfold next_rowid. lia. Qed.

Lemma next_rowid_above_seq (s : Store) : sqlite_sequence s < next_rowid s.
Proof. unfold next_rowid. lia. Qed.

Lemma next_rowid_positive (s : Store) : 1 ≤ next_rowid s.
Proof. unfold next_rowid. pose proof (max_rowid_nonneg (tasks s)). lia. Qed.

(** A key above every key of the table goes to its end. *)
Lemma btree_insert_last (r : Row) (rows : list Row) :
  Forall (λ x, id x ≤ id r) rows → btree_insert r rows = rows ++ [r].
Proof.
  induction 1 as [|x rows Hx _ IH]; simpl; [done|].
  destruct (Z.ltb_spec (id r) (id x)); [lia|]. by rewrite IH.
Qed.

Lemma tasks_add_task (t p d now : str) (s : Store) :
  tasks (add_task t p d now s)
  = tasks s ++ [mkRow (next_rowid s) t p 0 d now].
Proof.
  unfold add_task; simpl. apply btree_insert_last.
  apply Forall_forall. intros x Hx%next_rowid_fresh. simpl. lia.
Qed.

Lemma sqlite_sequence_add_task (t p d now : str) (s : Store) :
  sqlite_sequence (add_task t p d now s) = next_rowid s.
Proof. reflexivity. Qed.

(** ** Listing *)

Lemma py_completed_ne_pending : py "COMPLETED" ≠ py "PENDING".
Proof. discriminate. Qed.

Lemma get_tasks_all (D : str) (s : Store) :
  get_tasks D (py "ALL") s = columns <$> filter (λ r, task_date r = D) (tasks s).
Proof. reflexivity. Qed.

Lemma get_tasks_completed (D : str) (s : Store) :
  get_tasks D (py "COMPLETED") s
  = columns <$> filter (λ r, task_date r = D ∧ is_completed r = 1) (tasks s).
Proof. reflexivity. Qed.

Lemma get_tasks_pending (D : str) (s : Store) :
  get_tasks D (py "PENDING") s
  = columns <$> filter (λ r, task_date r = D ∧ is_completed r = 0) (tasks s).
Proof. reflexivity. Qed.

(** A listing only reads the table, and reads it front to back. *)
Lemma get_tasks_app (D f : str) (s s1 s2 : Store) :
  tasks s = tasks s1 ++ tasks s2 →
  get_tasks D f s = get_tasks D f s1 ++ get_tasks D f s2.
Proof.
  intros Heq. unfold get_tasks, select.
  repeat case_decide; by rewrite Heq, filter_app, fmap_app.
Qed.

Lemma elem_of_get_tasks (D f : str) (s : Store) (x : Z * str * str * Z) :
  x ∈ get_tasks D f s ↔
  ∃ r, r ∈ tasks s ∧ x = columns r ∧ task_date r = D
       ∧ (f = py "COMPLETED" → is_completed r = 1)
       ∧ (f = py "PENDING" → is_completed r = 0).
Proof.
  pose proof py_completed_ne_pending as Hne.
  unfold get_tasks, select.
  repeat case_decide; subst; rewrite list_elem_of_fmap;
    setoid_rewrite list_elem_of_filter; naive_solver.
Qed.

Lemma listed_ids_sublist (D f : str) (s : Store) :
  listed_id <$> get_tasks D f s `sublist_of` id <$> tasks s.
Proof.
  unfold get_tasks, select.
  repeat case_decide; rewrite <- list_fmap_compose;
    change (listed_id ∘ columns) with id; apply fmap_sublist, sublist_filter.
Qed.

Lemma listed_id_stored (D f : str) (s : Store) (x : Z * str * str * Z) :
  x ∈ get_tasks D f s → ∃ r, r ∈ tasks s ∧ id r = listed_id x.
Proof.
  intros (r & Hin & -> & _)%elem_of_get_tasks. by exists r.
Qed.

(** C1.  Adding a task for date [D] and then listing [D] with filter
    ["ALL"] gives the rows listed before, followed by exactly one more row:
    it carries the given title and priority and the completion flag of
    [False], under an identifier that no row of the store had before. *)
Theorem add_task_then_list (t p D now : str) (s : Store) :
  get_tasks D (py "ALL") (add_task t p D now s)
  = get_tasks D (py "ALL") s ++ [(next_rowid s, t, p, int false)]
  ∧ (∀ r, r ∈ tasks s → id r ≠ next_rowid s).
Proof.
  split.
  - rewrite (get_tasks_app D _ _ s
               (mkStore [mkRow (next_rowid s) t p 0 D now] 0))
      by apply tasks_add_task.
    f_equal. rewrite get_tasks_all; simpl.
    rewrite filter_cons, decide_True by done. by rewrite filter_nil.
  - intros r Hr%next_rowid_fresh. lia.
Qed.

(** C10.  A filter string other than ["COMPLETED"] and ["PENDING"] lists
    what ["ALL"] lists: every row of the date, whatever its completion
    flag. *)
Theorem get_tasks_other_filter (D f : str) (s : Store) :
  f ≠ py "COMPLETED" → f ≠ py "PENDING" →
  get_tasks D f s = get_tasks D (py "ALL") s
  ∧ get_tasks D f s = columns <$> filter (λ r, task_date r = D) (tasks s).
Proof.
  intros Hc Hp. rewrite get_tasks_all. unfold get_tasks, select.
  by rewrite !decide_False by done.
Qed.

Lemma get_tasks_other_filter_witness :
  get_tasks (py "2024-01-01") (py "completed")
    (run two_days (create_table None))
  = get_tasks (py "2024-01-01") (py "ALL") (run two_days (create_table None))
  ∧ get_tasks (py "2024-01-01") (py "completed")
      (run two_days (create_table None))
    = [ (1, py "Buy milk", py "Medium", 1); (3, py "Pay rent", py "Low", 0) ].
Proof.
  destruct (get_tasks_other_filter (py "2024-01-01") (py "completed")
              (run two_days (create_table None))) as [H1 H2];
    [discriminate | discriminate |].
  split; [exact H1 | rewrite H2; reflexivity].
Defined.

(** ** The three statements that write *)

Lemma tasks_update_task (i : Z) (b : bool) (s : Store) :
  tasks (update_task i b s)
  = (λ r, if decide (id r = i) then set_is_completed (int b) r else r)
      <$> tasks s.
Proof. reflexivity. Qed.

Lemma ids_update_task (i : Z) (b : bool) (s : Store) :
  id <$> tasks (update_task i b s) = id <$> tasks s.
Proof.
  rewrite tasks_update_task, <- list_fmap_compose.
  apply list_fmap_ext. intros _ r _; simpl. by case_decide.
Qed.

Lemma same_task_refl (r : Row) : same_task r r.
Proof. by repeat split. Qed.

Lemma same_task_trans (r1 r2 r3 : Row) :
  same_task r1 r2 → same_task r2 r3 → same_task r1 r3.
Proof. unfold same_task. intros (?&?&?&?&?) (?&?&?&?&?). repeat split; congruence. Qed.

(** A row of the table after an [UPDATE] is a row of the table before it,
    up to its flag. *)
Lemma elem_of_update_task (i : Z) (b : bool) (s : Store) (r' : Row) :
  r' ∈ tasks (update_task i b s) →
  ∃ r, r ∈ tasks s ∧ same_task r r'
       ∧ (id r = i → is_completed r' = int b) ∧ (id r ≠ i → r' = r).
Proof.
  rewrite tasks_update_task.
  intros (r & -> & Hin)%list_elem_of_fmap. exists r.
  case_decide; repeat split; done.
Qed.

Lemma elem_of_delete_task (i : Z) (s : Store) (r : Row) :
  r ∈ tasks (delete_task i s) ↔ r ∈ tasks s ∧ id r ≠ i.
Proof. unfold delete_task; simpl. rewrite list_elem_of_filter. tauto. Qed.

Lemma delete_task_sublist (i : Z) (s : Store) :
  tasks (delete_task i s) `sublist_of` tasks s.
Proof. apply sublist_filter. Qed.

(** ** The invariant of the schema *)

Lemma Forall_sublist {A : Type} (P : A → Prop) (l k : list A) :
  l `sublist_of` k → Forall P k → Forall P l.
Proof.
  intros Hsub Hall. apply Forall_forall. intros x Hx.
  apply (proj1 (Forall_forall _ _) Hall). by eapply elem_of_sublist.
Qed.

Lemma StronglySorted_sublist {A : Type} (R : relation A) (l k : list A) :
  l `sublist_of` k → StronglySorted R k → StronglySorted R l.
Proof.
  induction 1 as [|x l k Hsub IH|x l k Hsub IH];
    rewrite ?StronglySorted_cons; [done| |].
  - intros [Hall Hk]. split; [by eapply Forall_sublist | by apply IH].
  - intros [_ Hk]. by apply IH.
Qed.

Lemma schema_inv_create_table : schema_inv (create_table None).
Proof. split; unfold seq_covers; simpl; constructor. Qed.

Lemma schema_inv_add_task (t p d now : str) (s : Store) :
  schema_inv s → schema_inv (add_task t p d now s).
Proof.
  intros [Hsorted Hpos Hseq Hflag].
  pose proof (next_rowid_above_seq s) as Habove.
  split; unfold seq_covers in *;
    rewrite ?tasks_add_task, ?sqlite_sequence_add_task.
  - rewrite fmap_app. apply StronglySorted_app_2; [|done|].
    + intros i j (r & -> & Hr)%list_elem_of_fmap Hj.
      apply list_elem_of_singleton in Hj as ->; simpl.
      by apply next_rowid_fresh.
    + repeat constructor.
  - apply Forall_app; split; [done|].
    repeat constructor; simpl. apply next_rowid_positive.
  - apply Forall_app; split.
    + eapply Forall_impl; [exact Hseq|]. simpl; intros; lia.
    + repeat constructor; simpl; lia.
  - apply Forall_app; split; [done|]. repeat constructor; simpl; by left.
Qed.

Lemma schema_inv_update_task (i : Z) (b : bool) (s : Store) :
  schema_inv s → schema_inv (update_task i b s).
Proof.
  intros [Hsorted Hpos Hseq Hflag].
  split; unfold seq_covers in *.
  - by rewrite ids_update_task.
  - apply Forall_forall. intros r' (r & Hin & (Hid & _) & _)%elem_of_update_task.
    rewrite Hid. by apply (proj1 (Forall_forall _ _) Hpos).
  - apply Forall_forall. intros r' (r & Hin & (Hid & _) & _)%elem_of_update_task.
    rewrite Hid. by apply (proj1 (Forall_forall _ _) Hseq).
  - apply Forall_forall. intros r' (r & Hin & _ & Hi & Hni)%elem_of_update_task.
    destruct (decide (id r = i)) as [Heq|Hne].
    + rewrite (Hi Heq). destruct b; [by right | by left].
    + rewrite (Hni Hne). by apply (proj1 (Forall_forall _ _) Hflag).
Qed.

Lemma schema_inv_delete_task (i : Z) (s : Store) :
  schema_inv s → schema_inv (delete_task i s).
Proof.
  intros [Hsorted Hpos Hseq Hflag].
  pose proof (delete_task_sublist i s) as Hsub.
  split; unfold seq_covers in *.
  - eapply StronglySorted_sublist; [|exact Hsorted]. by apply fmap_sublist.
  - by eapply Forall_sublist.
  - by eapply Forall_sublist.
  - by eapply Forall_sublist.
Qed.

Lemma schema_inv_step (c : call) (s : Store) :
  schema_inv s → schema_inv (step c s).
Proof.
  destruct c; simpl;
    auto using schema_inv_add_task, schema_inv_update_task,
      schema_inv_delete_task.
Qed.

Lemma schema_inv_run (cs : list call) (s : Store) :
  schema_inv s → schema_inv (run cs s).
Proof.
  revert s. induction cs as [|c cs IH]; intros s Hinv; simpl; [done|].
  by apply IH, schema_inv_step.
Qed.

Lemma reachable_schema_inv (s : Store) : reachable s → schema_inv s.
Proof. intros [cs ->]. apply schema_inv_run, schema_inv_create_table. Qed.

(** The primary key: a stored identifier names one row. *)
Lemma StronglySorted_lt_NoDup (l : list Z) : StronglySorted Z.lt l → NoDup l.
Proof.
  induction 1 as [|x l _ IH Hall]; constructor; [|done].
  intros Hin. apply (proj1 (Forall_forall _ _) Hall) in Hin. lia.
Qed.

Lemma schema_inv_NoDup (s : Store) : schema_inv s → NoDup (id <$> tasks s).
Proof. intros [Hsorted _ _ _]. by apply StronglySorted_lt_NoDup. Qed.

Lemma NoDup_fmap_elem_eq {A B : Type} (f : A → B) (l : list A) (x y : A) :
  NoDup (f <$> l) → x ∈ l → y ∈ l → f x = f y → x = y.
Proof.
  induction l as [|a l IH]; simpl; intros Hnd Hx Hy Heq;
    [by apply not_elem_of_nil in Hx|].
  apply NoDup_cons in Hnd as [Hnotin Hnd].
  apply elem_of_cons in Hx as [->|Hx]; apply elem_of_cons in Hy as [->|Hy];
    try done.
  - exfalso. apply Hnotin. rewrite Heq. by apply list_elem_of_fmap_2.
  - exfalso. apply Hnotin. rewrite <- Heq. by apply list_elem_of_fmap_2.
  - by apply IH.
Qed.

Lemma primary_key (s : Store) (r r' : Row) :
  schema_inv s → r ∈ tasks s → r' ∈ tasks s → id r = id r' → r = r'.
Proof.
  intros Hinv%schema_inv_NoDup. by apply NoDup_fmap_elem_eq.
Qed.

(** ** Filters *)

Lemma filter_flag_Permutation (D : str) (rows : list Row) :
  Forall (λ r, is_completed r = 0 ∨ is_completed r = 1) rows →
  filter (λ r, task_date r = D) rows
  ≡ₚ filter (λ r, task_date r = D ∧ is_completed r = 1) rows
     ++ filter (λ r, task_date r = D ∧ is_completed r = 0) rows.
Proof.
  induction 1 as [|r rows Hr _ IH]; [done|].
  rewrite !filter_cons.
  destruct (decide (task_date r = D)) as [Hd|Hd].
  - destruct Hr as [Hr|Hr].
    + rewrite decide_False, decide_True by (rewrite ?Hr; naive_solver).
      rewrite <- Permutation_middle. by constructor.
    + rewrite decide_True, decide_False by (rewrite ?Hr; naive_solver).
      simpl. by constructor.
  - by rewrite !decide_False by naive_solver.
Qed.

(** C2.  In a state of the store, for a date [D]: ["COMPLETED"] lists only
    rows of [D] whose flag is that of [True], ["PENDING"] only rows of [D]
    whose flag is that of [False], ["ALL"] lists the rows of the two
    together, and is as long as the two together. *)
Theorem get_tasks_partition (D : str) (s : Store) :
  reachable s →
  (∀ x, x ∈ get_tasks D (py "COMPLETED") s →
        ∃ r, r ∈ tasks s ∧ x = columns r
             ∧ is_completed r = int true ∧ task_date r = D)
  ∧ (∀ x, x ∈ get_tasks D (py "PENDING") s →
          ∃ r, r ∈ tasks s ∧ x = columns r
               ∧ is_completed r = int false ∧ task_date r = D)
  ∧ get_tasks D (py "ALL") s
    ≡ₚ get_tasks D (py "COMPLETED") s ++ get_tasks D (py "PENDING") s
  ∧ length (get_tasks D (py "ALL") s)
    = (length (get_tasks D (py "COMPLETED") s)
       + length (get_tasks D (py "PENDING") s))%nat.
Proof.
  intros [_ _ _ Hflag]%reachable_schema_inv.
  assert (get_tasks D (py "ALL") s
          ≡ₚ get_tasks D (py "COMPLETED") s ++ get_tasks D (py "PENDING") s)
    as Hperm.
  { rewrite get_tasks_all, get_tasks_completed, get_tasks_pending.
    rewrite <- fmap_app. by apply fmap_Permutation, filter_flag_Permutation. }
  split; [|split; [|split]].
  - intros x (r & Hin & -> & Hd & Hc & _)%elem_of_get_tasks.
    exists r. repeat split; auto.
  - intros x (r & Hin & -> & Hd & _ & Hp)%elem_of_get_tasks.
    exists r. repeat split; auto.
  - exact Hperm.
  - by rewrite Hperm, length_app.
Qed.

Lemma get_tasks_partition_witness :
  reachable (run two_days (create_table None))
  ∧ length (get_tasks (py "2024-01-01") (py "ALL")
              (run two_days (create_table None)))
    = (length (get_tasks (py "2024-01-01") (py "COMPLETED")
                 (run two_days (create_table None)))
       + length (get_tasks (py "2024-01-01") (py "PENDING")
                   (run two_days (create_table None))))%nat.
Proof.
  assert (reachable (run two_days (create_table None))) as Hreach
    by (exists two_days; reflexivity).
  split; [exact Hreach|].
  exact (proj2 (proj2 (proj2
    (get_tasks_partition (py "2024-01-01") _ Hreach)))).
Defined.

(** ** Completion flags *)

Lemma fmap_fixed {A : Type} (f : A → A) (l : list A) :
  (∀ x, x ∈ l → f x = x) → f <$> l = l.
Proof.
  intros Hfix. rewrite <- (list_fmap_id l) at 2.
  apply list_fmap_ext. intros k x Hk. apply Hfix.
  by eapply list_elem_of_lookup_2.
Qed.

(** C4.  In a state of the store holding a row with identifier [i] and
    flag [b], setting the flag of [i] to [not b] and then to [b] gives
    back the state. *)
Theorem toggle_twice (i : Z) (b : bool) (s : Store) (r : Row) :
  reachable s → r ∈ tasks s → id r = i → is_completed r = int b →
  update_task i b (update_task i (negb b) s) = s.
Proof.
  intros Hinv%reachable_schema_inv Hin Hid Hflag.
  destruct s as [rows n]. unfold update_task; simpl in *. f_equal.
  rewrite <- list_fmap_compose. apply fmap_fixed.
  intros x Hx; simpl.
  destruct (decide (id x = i)) as [Hxi|Hxi]; simpl.
  - rewrite decide_True by done.
    assert (x = r) as -> by (eapply (primary_key _ _ _ Hinv); simpl; congruence).
    destruct r; simpl in *. by rewrite Hflag.
  - by rewrite decide_False.
Qed.

Lemma toggle_twice_witness :
  update_task 1 true (update_task 1 (negb true)
    (run two_days (create_table None)))
  = run two_days (create_table None).
Proof.
  apply (toggle_twice 1 true (run two_days (create_table None))
           (mkRow 1 (py "Buy milk") (py "Medium") 1 (py "2024-01-01")
              (py "t0"))).
  - exists two_days; reflexivity.
  - vm_compute. apply list_elem_of_here.
  - reflexivity.
  - reflexivity.
Defined.

(** ** Frames of [update_task] and [delete_task] *)

Lemma update_task_rows (i : Z) (b : bool) (s : Store) :
  Forall2 (λ r r', same_task r r'
                   ∧ (id r = i → is_completed r' = int b)
                   ∧ (id r ≠ i → r' = r))
    (tasks s) (tasks (update_task i b s)).
Proof.
  rewrite tasks_update_task. apply Forall2_fmap_r, Forall_Forall2_diag.
  apply Forall_forall. intros r _; simpl.
  case_decide; repeat split; done.
Qed.

Lemma update_task_absent (i : Z) (b : bool) (s : Store) :
  (∀ r, r ∈ tasks s → id r ≠ i) → update_task i b s = s.
Proof.
  intros Habs. destruct s as [rows n]. unfold update_task; simpl in *.
  f_equal. apply fmap_fixed. intros x Hx. by rewrite decide_False by auto.
Qed.

Lemma filter_all {A : Type} (P : A → Prop) `{!∀ x, Decision (P x)}
    (l : list A) :
  (∀ x, x ∈ l → P x) → filter P l = l.
Proof.
  induction l as [|a l IH]; intros Hall; [done|].
  rewrite filter_cons, decide_True by (apply Hall; left).
  f_equal. apply IH. intros x Hx. apply Hall. by right.
Qed.

Lemma filter_none {A : Type} (P : A → Prop) `{!∀ x, Decision (P x)}
    (l : list A) :
  (∀ x, x ∈ l → ¬ P x) → filter P l = [].
Proof.
  induction l as [|a l IH]; intros Hall; [done|].
  rewrite filter_cons, decide_False by (apply Hall; left).
  apply IH. intros x Hx. apply Hall. by right.
Qed.

Lemma delete_task_absent (i : Z) (s : Store) :
  (∀ r, r ∈ tasks s → id r ≠ i) → delete_task i s = s.
Proof.
  intros Habs. destruct s as [rows n]. unfold delete_task; simpl in *.
  f_equal. by apply filter_all.
Qed.

(** At most one row answers to an identifier. *)
Lemma rows_of_id (i : Z) (rows : list Row) :
  NoDup (id <$> rows) → (length (filter (λ r, id r = i) rows) ≤ 1)%nat.
Proof.
  induction rows as [|r rows IH]; simpl; [intros _; simpl; lia|].
  intros [Hnotin Hnd]%NoDup_cons. rewrite filter_cons.
  destruct (decide (id r = i)) as [<-|Hne]; [|by apply IH].
  rewrite filter_none; [simpl; lia|].
  intros x Hx Heq. apply Hnotin. rewrite <- Heq. by apply list_elem_of_fmap_2.
Qed.

Lemma length_filter_split {A : Type} (P : A → Prop) `{!∀ x, Decision (P x)}
    (l : list A) :
  length l = (length (filter P l) + length (filter (λ x, ¬ P x) l))%nat.
Proof. by rewrite <- length_app, filter_app_complement. Qed.

(** C7.  In a state of the store: [update_task i b] keeps every row in its
    place, gives the row with identifier [i] the flag of [b] and changes no
    other column of it and no other row, there is at most one such row, and
    nothing changes when there is none; [delete_task i] keeps the rows with
    another identifier, unchanged and in their order, removes at most one
    row, and changes nothing when no row has identifier [i]. *)
Theorem update_delete_frame (i : Z) (b : bool) (s : Store) :
  reachable s →
  (sqlite_sequence (update_task i b s) = sqlite_sequence s
   ∧ Forall2 (λ r r', id r' = id r ∧ title r' = title r
                      ∧ priority r' = priority r
                      ∧ task_date r' = task_date r
                      ∧ created_at r' = created_at r
                      ∧ (id r = i → is_completed r' = int b)
                      ∧ (id r ≠ i → r' = r))
       (tasks s) (tasks (update_task i b s))
   ∧ (length (filter (λ r, id r = i) (tasks s)) ≤ 1)%nat
   ∧ ((∀ r, r ∈ tasks s → id r ≠ i) → update_task i b s = s))
  ∧ (sqlite_sequence (delete_task i s) = sqlite_sequence s
     ∧ tasks (delete_task i s) `sublist_of` tasks s
     ∧ (∀ r, r ∈ tasks (delete_task i s) ↔ r ∈ tasks s ∧ id r ≠ i)
     ∧ (length (tasks s) ≤ length (tasks (delete_task i s)) + 1)%nat
     ∧ ((∀ r, r ∈ tasks s → id r ≠ i) → delete_task i s = s)).
Proof.
  intros Hnd%reachable_schema_inv%schema_inv_NoDup.
  pose proof (rows_of_id i _ Hnd) as Hone.
  split; [split; [done|split; [|split]]|split; [done|split; [|split; [|split]]]].
  - eapply Forall2_impl; [apply update_task_rows|].
    unfold same_task. naive_solver.
  - exact Hone.
  - apply update_task_absent.
  - apply delete_task_sublist.
  - apply elem_of_delete_task.
  - rewrite (length_filter_split (λ r, id r ≠ i) (tasks s)).
    unfold delete_task; simpl.
    rewrite (list_filter_iff (λ r, ¬ id r ≠ i) (λ r, id r = i))
      by (intros r; destruct (decide (id r = i)); naive_solver).
    lia.
  - apply delete_task_absent.
Qed.

Lemma update_delete_frame_witness :
  tasks (update_task 3 true (run two_days (create_table None)))
  = [ mkRow 1 (py "Buy milk") (py "Medium") 1 (py "2024-01-01") (py "t0");
      mkRow 3 (py "Pay rent") (py "Low") 1 (py "2024-01-01") (py "t2") ]
  ∧ delete_task 2 (run two_days (create_table None))
    = run two_days (create_table None).
Proof.
  destruct (update_delete_frame 2 true (run two_days (create_table None)))
    as [_ (_ & _ & _ & _ & Habsent)]; [exists two_days; reflexivity|].
  split; [reflexivity|].
  apply Habsent. intros r Hr. vm_compute in Hr.
  repeat (apply elem_of_cons in Hr as [->|Hr]; [discriminate|]).
  by apply not_elem_of_nil in Hr.
Defined.

(** ** Histories *)

Lemma seq_covers_add_task (t p d now : str) (s : Store) :
  seq_covers (add_task t p d now s).
Proof.
  unfold seq_covers. rewrite tasks_add_task, sqlite_sequence_add_task.
  apply Forall_app; split.
  - apply Forall_forall. intros r Hr%next_rowid_fresh. lia.
  - repeat constructor; simpl; lia.
Qed.

Lemma seq_covers_step (c : call) (s : Store) :
  seq_covers s → seq_covers (step c s).
Proof.
  intros Hcov. destruct c as [t p d now|i b|i]; simpl.
  - apply seq_covers_add_task.
  - apply Forall_forall.
    intros r' (r & Hin & (Hid & _) & _)%elem_of_update_task.
    rewrite Hid. by apply (proj1 (Forall_forall _ _) Hcov).
  - eapply Forall_sublist; [apply delete_task_sublist | exact Hcov].
Qed.

Lemma sqlite_sequence_step (c : call) (s : Store) :
  sqlite_sequence s ≤ sqlite_sequence (step c s).
Proof.
  destruct c; simpl; try lia. pose proof (next_rowid_above_seq s). lia.
Qed.

Lemma sqlite_sequence_run (cs : list call) (s : Store) :
  sqlite_sequence s ≤ sqlite_sequence (run cs s).
Proof.
  revert s. induction cs as [|c cs IH]; intros s; simpl; [lia|].
  pose proof (sqlite_sequence_step c s). specialize (IH (step c s)). lia.
Qed.

(** Every identifier a history hands out lies above the counter it started
    from and at most at the counter it ends with. *)
Lemma assigned_bounds (cs : list call) (s : Store) :
  Forall (λ i, sqlite_sequence s < i ≤ sqlite_sequence (run cs s))
    (assigned cs s).
Proof.
  revert s. induction cs as [|c cs IH]; intros s; [constructor|].
  pose proof (sqlite_sequence_step c s) as Hstep.
  destruct c as [t p d now|i b|i]; simpl in *.
  - constructor.
    + pose proof (sqlite_sequence_run cs (add_task t p d now s)) as Hrun.
      rewrite sqlite_sequence_add_task in Hrun.
      pose proof (next_rowid_above_seq s). lia.
    + eapply Forall_impl; [apply IH|]. simpl. intros; lia.
  - eapply Forall_impl; [apply (IH (update_task i b s))|]. simpl. intros; lia.
  - eapply Forall_impl; [apply (IH (delete_task i s))|]. simpl. intros; lia.
Qed.

(** Identifiers are handed out in strictly increasing order. *)
Lemma assigned_increasing (cs : list call) (s : Store) :
  StronglySorted Z.lt (assigned cs s).
Proof.
  revert s. induction cs as [|c cs IH]; intros s; [constructor|].
  destruct c as [t p d now|i b|i]; simpl; try apply IH.
  constructor; [apply IH|].
  eapply Forall_impl; [apply assigned_bounds|].
  intros j. rewrite sqlite_sequence_add_task. lia.
Qed.

(** A row of a later state is a row of the earlier state, up to its flag,
    or was added on the way. *)
Lemma run_origin (cs : list call) (s : Store) (r' : Row) :
  r' ∈ tasks (run cs s) →
  (∃ r, r ∈ tasks s ∧ same_task r r') ∨ id r' ∈ assigned cs s.
Proof.
  revert s. induction cs as [|c cs IH]; intros s Hin; simpl in *.
  { left. exists r'. split; [done | apply same_task_refl]. }
  destruct c as [t p d now|i b|i]; simpl in *;
    (destruct (IH _ Hin) as [(r1 & Hr1 & Hsame)|Hnew];
     [|by auto using list_elem_of_further]).
  - rewrite tasks_add_task in Hr1.
    apply elem_of_app in Hr1 as [Hr1|Hr1%list_elem_of_singleton].
    + left. by exists r1.
    + right. destruct Hsame as [-> _]. subst r1. apply list_elem_of_here.
  - apply elem_of_update_task in Hr1 as (r & Hr & Hsame' & _).
    left. exists r. split; [done|]. by eapply same_task_trans.
  - apply elem_of_delete_task in Hr1 as [Hr1 _].
    left. by exists r1.
Qed.

(** The table lists its rows in the order they were added. *)
Lemma run_ids_sublist (cs : list call) (s : Store) :
  id <$> tasks (run cs s) `sublist_of` (id <$> tasks s) ++ assigned cs s.
Proof.
  revert s. induction cs as [|c cs IH]; intros s; simpl.
  { by rewrite app_nil_r. }
  destruct c as [t p d now|i b|i]; simpl.
  - etrans; [apply IH|].
    by rewrite tasks_add_task, fmap_app, <- app_assoc.
  - etrans; [apply IH|]. by rewrite ids_update_task.
  - etrans; [apply IH|].
    apply sublist_app; [|done]. apply fmap_sublist, delete_task_sublist.
Qed.

(** C9.  In the state a history of calls leads to from the freshly created
    schema, no two rows share an identifier; the identifiers were handed
    out in strictly increasing order and every row carries one of them; and
    the next [add_task] gives its row an identifier above all of them. *)
Theorem identifiers_unique_increasing (cs : list call) :
  NoDup (id <$> tasks (run cs (create_table None)))
  ∧ StronglySorted Z.lt (assigned cs (create_table None))
  ∧ (∀ r, r ∈ tasks (run cs (create_table None)) →
          id r ∈ assigned cs (create_table None))
  ∧ Forall (λ i, i < next_rowid (run cs (create_table None)))
      (assigned cs (create_table None))
  ∧ (∀ t p d now,
       id <$> tasks (add_task t p d now (run cs (create_table None)))
       = (id <$> tasks (run cs (create_table None)))
         ++ [next_rowid (run cs (create_table None))]).
Proof.
  split; [|split; [|split; [|split]]].
  - apply schema_inv_NoDup, schema_inv_run, schema_inv_create_table.
  - apply assigned_increasing.
  - intros r [(r0 & Hr0 & _)|Hnew]%run_origin; [|done].
    by apply not_elem_of_nil in Hr0.
  - pose proof (next_rowid_above_seq (run cs (create_table None))) as Hnext.
    eapply Forall_impl; [exact (assigned_bounds cs (create_table None))|].
    intros j [_ Hj]. simpl in *. lia.
  - intros t p d now. by rewrite tasks_add_task, fmap_app.
Qed.

(** C8.  A listing shows its rows in the order in which they were added:
    the identifiers it lists, read front to back, are picked in order from
    the identifiers handed out by the history, oldest first, none of which
    occurs twice. *)
Theorem get_tasks_insertion_order (cs : list call) (D f : str) :
  listed_id <$> get_tasks D f (run cs (create_table None))
    `sublist_of` assigned cs (create_table None)
  ∧ NoDup (assigned cs (create_table None)).
Proof.
  split.
  - etrans; [apply listed_ids_sublist|]. apply (run_ids_sublist cs).
  - apply StronglySorted_lt_NoDup, assigned_increasing.
Qed.

(** An identifier at or below the counter is never handed out again. *)
Lemma assigned_above (cs : list call) (s : Store) (i : Z) :
  i ≤ sqlite_sequence s → i ∉ assigned cs s.
Proof.
  intros Hle Hin.
  apply (proj1 (Forall_forall _ _) (assigned_bounds cs s)) in Hin. lia.
Qed.

(** What a listing can show after a [DELETE]: nothing under the deleted
    identifier, unless that identifier is handed out again. *)
Lemma listed_after_delete (i : Z) (s : Store) (cs : list call)
    (D f : str) (x : Z * str * str * Z) :
  x ∈ get_tasks D f (run cs (delete_task i s)) →
  listed_id x = i → i ∈ assigned cs (delete_task i s).
Proof.
  intros (r & Hr & Hid)%listed_id_stored Hx.
  apply run_origin in Hr as [(r0 & Hr0 & Hsame)|Hnew].
  - apply elem_of_delete_task in Hr0 as [_ Hne].
    destruct Hsame as [Hsame _]. congruence.
  - congruence.
Qed.

(** C5.  After [delete_task i], whatever calls follow, no listing for any
    date and filter shows a row with identifier [i], unless one of those
    calls is an [add_task] whose row is assigned [i]. *)
Theorem delete_task_permanent (i : Z) (s : Store) (cs : list call)
    (D f : str) (x : Z * str * str * Z) :
  i ∉ assigned cs (delete_task i s) →
  x ∈ get_tasks D f (run cs (delete_task i s)) → listed_id x ≠ i.
Proof.
  intros Hfresh Hx Hid. by eapply Hfresh, listed_after_delete.
Qed.

Lemma delete_task_permanent_witness :
  listed_id (3, py "Pay rent", py "Low", 0) ≠ 1.
Proof.
  apply (delete_task_permanent 1 (run two_days (create_table None))
           [Add (py "Buy eggs") (py "Low") (py "2024-01-01") (py "t3");
            Update 1 false]
           (py "2024-01-01") (py "ALL")).
  - vm_compute. intros Hin%list_elem_of_singleton. discriminate.
  - vm_compute. apply list_elem_of_here.
Defined.

(** An identifier that was once handed out and is deleted stays away for
    good: it cannot be assigned again. *)
Lemma deleted_id_never_listed (i : Z) (s : Store) (cs : list call)
    (D f : str) (x : Z * str * str * Z) :
  i ≤ sqlite_sequence s →
  x ∈ get_tasks D f (run cs (delete_task i s)) → listed_id x ≠ i.
Proof.
  intros Hle Hx Hid.
  by apply (assigned_above cs (delete_task i s) i), (listed_after_delete _ _ _ D f x).
Qed.

(** C3.  A task added under date [D1] is not listed for another date [D2],
    whatever the filter: the listing for [D2] is what it was before the
    insertion, and the identifier of the new row shows up in no listing for
    [D2] after any further calls. *)
Theorem other_date_never_listed (t p D1 D2 f now : str) (s : Store) :
  D1 ≠ D2 →
  get_tasks D2 f (add_task t p D1 now s) = get_tasks D2 f s
  ∧ (∀ cs x, x ∈ get_tasks D2 f (run cs (add_task t p D1 now s)) →
             listed_id x ≠ next_rowid s).
Proof.
  intros Hne. split.
  - rewrite (get_tasks_app D2 _ _ s
               (mkStore [mkRow (next_rowid s) t p 0 D1 now] 0))
      by apply tasks_add_task.
    rewrite <- (app_nil_r (get_tasks D2 f s)) at 2. f_equal.
    unfold get_tasks, select; simpl.
    repeat case_decide; by rewrite filter_cons, decide_False by naive_solver.
  - intros cs x Hx Hid.
    apply elem_of_get_tasks in Hx as (r & Hr & -> & Hd & _).
    change (id r = next_rowid s) in Hid.
    apply run_origin in Hr as [(r0 & Hr0 & Hsame)|Hnew].
    + destruct Hsame as (Hsid & _ & _ & Hsd & _).
      rewrite tasks_add_task in Hr0.
      apply elem_of_app in Hr0 as [Hr0%next_rowid_fresh|Hr0%list_elem_of_singleton].
      * lia.
      * subst r0. simpl in Hsd. congruence.
    + apply (assigned_above cs (add_task t p D1 now s) (id r)); [|done].
      rewrite sqlite_sequence_add_task. lia.
Qed.

Lemma other_date_never_listed_witness :
  get_tasks (py "2024-01-02") (py "ALL")
    (add_task (py "Buy eggs") (py "Low") (py "2024-01-01") (py "t3") milk)
  = get_tasks (py "2024-01-02") (py "ALL") milk.
Proof.
  apply (other_date_never_listed (py "Buy eggs") (py "Low") (py "2024-01-01")
           (py "2024-01-02") (py "ALL") (py "t3") milk).
  discriminate.
Defined.

(** ** The controller *)

Example strip_title :
  strip ([32; 9]%N ++ py "Buy milk" ++ [160; 10]%N) = py "Buy milk"
  ∧ strip (py "Buy  milk") = py "Buy  milk".
Proof. split; reflexivity. Qed.

Example controller_adds :
  let app := TaskManagerApp.mk (create_table None) (py "2024-01-01")
               (py "ALL") (py "  Buy milk ") (py "Medium") [] in
  TaskManagerApp.add_task (py "t0") app
  = TaskManagerApp.mk milk (py "2024-01-01") (py "ALL") [] (py "Medium")
      [ TaskItem.mk 1 (py "[Medium] Buy milk") false (Some (py "orange"))
          false ].
Proof. reflexivity. Qed.

(** The handlers of a row write through to the store: [toggle] stores the
    value of the checkbox, [delete] removes the row. *)
Lemma toggle_item_db (item : TaskItem.t) (self : TaskManagerApp.t) :
  TaskManagerApp.db (TaskManagerApp.toggle_item item self)
  = update_task (TaskItem.task_id item) (TaskItem.checkbox_value item)
      (TaskManagerApp.db self).
Proof. reflexivity. Qed.

Lemma delete_item_db (item : TaskItem.t) (self : TaskManagerApp.t) :
  TaskManagerApp.db (TaskManagerApp.delete_item item self)
  = delete_task (TaskItem.task_id item) (TaskManagerApp.db self).
Proof. reflexivity. Qed.

Lemma lstrip_nil (s : str) : lstrip s = [] ↔ forallb isspace s = true.
Proof.
  induction s as [|c s IH]; simpl; [done|].
  destruct (isspace c); simpl; [done|]. split; discriminate.
Qed.

Lemma lstrip_head (s : str) (c : N) (s' : str) :
  lstrip s = c :: s' → isspace c = false.
Proof.
  induction s as [|a s IH]; simpl; [discriminate|].
  destruct (isspace a) eqn:Ha; [done|]. by intros [= <- _].
Qed.

Lemma forallb_reverse (s : str) :
  forallb isspace (reverse s) = forallb isspace s.
Proof.
  induction s as [|c s IH]; [done|].
  rewrite reverse_cons, forallb_app, IH; simpl. rewrite andb_true_r.
  apply andb_comm.
Qed.

(** [strip] leaves nothing exactly of the strings made of white space. *)
Lemma strip_nil (s : str) : strip s = [] ↔ forallb isspace s = true.
Proof.
  unfold strip, rstrip. split.
  - intros Hnil. apply lstrip_nil.
    destruct (lstrip s) as [|c s'] eqn:Hl; [done|].
    apply lstrip_head in Hl as Hc.
    apply (f_equal reverse) in Hnil.
    rewrite reverse_involutive, reverse_nil in Hnil.
    apply lstrip_nil in Hnil. rewrite forallb_reverse in Hnil.
    simpl in Hnil. by rewrite Hc in Hnil.
  - intros Hall%lstrip_nil. by rewrite Hall.
Qed.

(** C6.  When the input field is empty or holds white space only, the
    add-task action of the controller changes nothing: the store, and with
    it the rest of the controller, is what it was. *)
Theorem add_task_blank_title (now : str) (self : TaskManagerApp.t) :
  forallb isspace (TaskManagerApp.task_input self) = true →
  TaskManagerApp.add_task now self = self
  ∧ TaskManagerApp.db (TaskManagerApp.add_task now self)
    = TaskManagerApp.db self.
Proof.
  intros Hblank%strip_nil. unfold TaskManagerApp.add_task.
  by rewrite Hblank.
Qed.

Lemma add_task_blank_title_witness :
  TaskManagerApp.add_task (py "t1")
    (TaskManagerApp.mk milk (py "2024-01-01") (py "ALL")
       [32; 9; 160; 8195]%N (py "Medium") [])
  = TaskManagerApp.mk milk (py "2024-01-01") (py "ALL")
      [32; 9; 160; 8195]%N (py "Medium") [].
Proof.
  apply (add_task_blank_title (py "t1")
           (TaskManagerApp.mk milk (py "2024-01-01") (py "ALL")
              [32; 9; 160; 8195]%N (py "Medium") [])).
  reflexivity.
Defined.

(** A title that is not blank is stored trimmed, with the selected priority
    and date, and the input field is cleared. *)
Lemma add_task_titled (now : str) (self : TaskManagerApp.t) :
  forallb isspace (TaskManagerApp.task_input self) = false →
  TaskManagerApp.db (TaskManagerApp.add_task now self)
  = add_task (strip (TaskManagerApp.task_input self))
      (TaskManagerApp.priority_dropdown self)
      (TaskManagerApp.selected_date self) now (TaskManagerApp.db self)
  ∧ TaskManagerApp.task_input (TaskManagerApp.add_task now self) = [].
Proof.
  intros Hblank. unfold TaskManagerApp.add_task.
  destruct (strip (TaskManagerApp.task_input self)) as [|c s'] eqn:Hs.
  - apply strip_nil in Hs. congruence.
  - done.
Qed.

(** * Further properties of the persistence helper *)

(** ** How the writing statements compose *)

(** X1.  Of two [update_task] calls on the same identifier the later one
    decides: the store is as if only the later call had been made (so a
    repeated call changes nothing more). *)
Theorem update_task_last_wins (i : Z) (b b' : bool) (s : Store) :
  update_task i b (update_task i b' s) = update_task i b s.
Proof.
  unfold update_task; simpl. f_equal.
  rewrite <- list_fmap_compose. apply list_fmap_ext. intros _ r _; simpl.
  destruct (decide (id r = i)) as [Hi|Hi]; simpl.
  - by rewrite decide_True.
  - by rewrite decide_False.
Qed.

(** X2.  [update_task] calls on different identifiers can be made in either
    order. *)
Theorem update_task_commute (i j : Z) (b b' : bool) (s : Store) :
  i ≠ j →
  update_task i b (update_task j b' s) = update_task j b' (update_task i b s).
Proof.
  intros Hne. unfold update_task; simpl. f_equal.
  rewrite <- !list_fmap_compose. apply list_fmap_ext. intros _ r _; simpl.
  destruct (decide (id r = j)) as [Hj|Hj], (decide (id r = i)) as [Hi|Hi];
    simpl; repeat case_decide; congruence.
Qed.

Lemma update_task_commute_witness :
  update_task 1 false (update_task 3 true (run two_days (create_table None)))
  = update_task 3 true (update_task 1 false (run two_days (create_table None))).
Proof. apply update_task_commute. discriminate. Defined.

(** X3.  [delete_task] calls can be made in either order, and deleting an
    identifier a second time changes nothing. *)
Theorem delete_task_commute (i j : Z) (s : Store) :
  delete_task i (delete_task j s) = delete_task j (delete_task i s)
  ∧ delete_task i (delete_task i s) = delete_task i s.
Proof.
  unfold delete_task; simpl. split; f_equal.
  - by rewrite !list_filter_filter, (list_filter_iff _ (λ r, id r ≠ j ∧ id r ≠ i))
      by naive_solver.
  - rewrite list_filter_filter. apply list_filter_iff. naive_solver.
Qed.

Lemma filter_fmap_same {A : Type} (P : A → Prop) `{!∀ x, Decision (P x)}
    (f : A → A) (l : list A) :
  (∀ x, P (f x) ↔ P x) → filter P (f <$> l) = f <$> filter P l.
Proof.
  intros Hiff. induction l as [|a l IH]; [done|].
  rewrite fmap_cons, !filter_cons.
  destruct (decide (P a)) as [Ha|Ha].
  - rewrite decide_True by by apply Hiff. by rewrite fmap_cons, IH.
  - rewrite decide_False by by rewrite Hiff. done.
Qed.

Lemma id_update_row (i : Z) (b : bool) (r : Row) :
  id (if decide (id r = i) then set_is_completed (int b) r else r) = id r.
Proof. by case_decide. Qed.

(** X4.  [delete_task] and [update_task] can be made in either order,
    whatever the two identifiers; a deletion after an update of the same
    identifier leaves what the deletion alone leaves. *)
Theorem delete_update_commute (i j : Z) (b : bool) (s : Store) :
  delete_task j (update_task i b s) = update_task i b (delete_task j s)
  ∧ delete_task i (update_task i b s) = delete_task i s.
Proof.
  unfold delete_task, update_task; simpl. split; f_equal.
  - apply (filter_fmap_same (λ r, id r ≠ j)).
    intros r. by rewrite id_update_row.
  - rewrite (filter_fmap_same (λ r, id r ≠ i))
      by (intros r; by rewrite id_update_row).
    apply fmap_fixed. intros r [Hr _]%list_elem_of_filter.
    by rewrite decide_False.
Qed.

(** X5.  Deleting the row that [add_task] has just added gives back the
    table but not the identifier: the counter stays advanced, and the next
    row gets the identifier after the deleted one. *)
Theorem add_then_delete (t p d now : str) (s : Store) :
  delete_task (next_rowid s) (add_task t p d now s)
  = mkStore (tasks s) (next_rowid s)
  ∧ next_rowid (delete_task (next_rowid s) (add_task t p d now s))
    = next_rowid s + 1.
Proof.
  assert (delete_task (next_rowid s) (add_task t p d now s)
          = mkStore (tasks s) (next_rowid s)) as Heq.
  { unfold delete_task. rewrite tasks_add_task, sqlite_sequence_add_task.
    f_equal. rewrite filter_app, filter_cons, decide_False, filter_nil, app_nil_r
      by (simpl; tauto).
    apply filter_all. intros r Hr%next_rowid_fresh. lia. }
  split; [done|]. rewrite Heq. unfold next_rowid at 1; simpl.
  f_equal. apply Z.max_l.
  pose proof (max_rowid_nonneg (tasks s)). unfold next_rowid. lia.
Qed.

(** ** Identifiers and rows along a history *)

Lemma next_rowid_covered (s : Store) :
  seq_covers s → 0 ≤ sqlite_sequence s → next_rowid s = sqlite_sequence s + 1.
Proof.
  destruct s as [rows n]. unfold seq_covers, next_rowid; simpl.
  intros Hcov Hn. f_equal. apply Z.max_l.
  induction Hcov as [|r rows Hr _ IH]; simpl; lia.
Qed.

Lemma assigned_counts (cs : list call) (s : Store) :
  seq_covers s → 0 ≤ sqlite_sequence s →
  assigned cs s = seqZ (sqlite_sequence s + 1) (Z.of_nat (count_adds cs))
  ∧ sqlite_sequence (run cs s) = sqlite_sequence s + Z.of_nat (count_adds cs).
Proof.
  revert s. induction cs as [|c cs IH]; intros s Hcov Hn.
  { simpl. split; [done|lia]. }
  pose proof (seq_covers_step c s Hcov) as Hcov'.
  pose proof (sqlite_sequence_step c s) as Hstep.
  destruct (IH (step c s)) as [Ha Hs]; [done|lia|].
  destruct c as [t p d now|i b|i]; simpl in *.
  - rewrite Ha, Hs, !next_rowid_covered by done.
    split; [|lia].
    rewrite (seqZ_cons _ (Z.of_nat (S (count_adds cs)))) by lia.
    do 2 f_equal; lia.
  - by rewrite Ha, Hs.
  - by rewrite Ha, Hs.
Qed.

(** X6.  From the freshly created schema the identifiers handed out are
    1, 2, 3, ... in the order of the [add_task] calls, and the counter is
    the number of [add_task] calls made, whatever was updated or deleted
    in between. *)
Theorem identifiers_count_up (cs : list call) :
  assigned cs (create_table None) = seqZ 1 (Z.of_nat (count_adds cs))
  ∧ sqlite_sequence (run cs (create_table None)) = Z.of_nat (count_adds cs).
Proof.
  destruct (assigned_counts cs (create_table None)) as [Ha Hs];
    [constructor | simpl; lia |].
  split; [exact Ha | rewrite Hs; simpl; lia].
Qed.

(** X7.  In a state of the store every listing, whatever the date and the
    filter, comes out in strictly increasing order of identifier. *)
Theorem listing_sorted_by_id (D f : str) (s : Store) :
  reachable s → StronglySorted Z.lt (listed_id <$> get_tasks D f s).
Proof.
  intros [Hsorted _ _ _]%reachable_schema_inv.
  eapply StronglySorted_sublist; [apply listed_ids_sublist | exact Hsorted].
Qed.

Lemma listing_sorted_by_id_witness :
  StronglySorted Z.lt
    (listed_id <$> get_tasks (py "2024-01-01") (py "ALL")
                     (run two_days (create_table None))).
Proof. apply listing_sorted_by_id. exists two_days; reflexivity. Defined.

(** X8.  Nothing ever rewrites the title, the priority, the date or the
    creation time of a task: in any later state, the row under the
    identifier of a row of a state of the store has the same four
    columns. *)
Theorem columns_immutable (cs : list call) (s : Store) (r r' : Row) :
  reachable s → r ∈ tasks s → r' ∈ tasks (run cs s) → id r' = id r →
  title r' = title r ∧ priority r' = priority r
  ∧ task_date r' = task_date r ∧ created_at r' = created_at r.
Proof.
  intros Hinv%reachable_schema_inv Hr Hr' Hid.
  apply run_origin in Hr' as [(r0 & Hr0 & Hsame)|Hnew].
  - destruct Hsame as (Hid0 & Ht & Hp & Hd & Hc).
    assert (r0 = r) as -> by (eapply primary_key; eauto; congruence).
    done.
  - exfalso. apply (assigned_above cs s (id r')); [|done].
    rewrite Hid. destruct Hinv as [_ _ Hcov _].
    by apply (proj1 (Forall_forall _ _) Hcov).
Qed.

Lemma columns_immutable_witness :
  title (mkRow 1 (py "Buy milk") (py "Medium") 0 (py "2024-01-01") (py "t0"))
  = py "Buy milk"
  ∧ task_date
      (mkRow 1 (py "Buy milk") (py "Medium") 0 (py "2024-01-01") (py "t0"))
    = py "2024-01-01".
Proof.
  destruct (columns_immutable
              [Update 1 false;
               Add (py "Buy eggs") (py "Low") (py "2024-01-03") (py "t3")]
              (run two_days (create_table None))
              (mkRow 1 (py "Buy milk") (py "Medium") 1 (py "2024-01-01")
                 (py "t0"))
              (mkRow 1 (py "Buy milk") (py "Medium") 0 (py "2024-01-01")
                 (py "t0")))
    as (Ht & _ & Hd & _).
  - exists two_days; reflexivity.
  - vm_compute. apply list_elem_of_here.
  - vm_compute. apply list_elem_of_here.
  - reflexivity.
  - split; [exact Ht | exact Hd].
Defined.

(** X11.  In a state of the store every identifier lies between 1 and the
    counter, and every completion flag is 0 or 1. *)
Theorem reachable_store_shape (s : Store) (r : Row) :
  reachable s → r ∈ tasks s →
  1 ≤ id r ≤ sqlite_sequence s ∧ (is_completed r = 0 ∨ is_completed r = 1).
Proof.
  intros [_ Hpos Hcov Hflag]%reachable_schema_inv Hr.
  unfold seq_covers in Hcov. rewrite Forall_forall in Hpos, Hcov, Hflag.
  auto.
Qed.

Lemma reachable_store_shape_witness :
  1 ≤ 3 ≤ sqlite_sequence (run two_days (create_table None))
  ∧ ((0 : Z) = 0 ∨ (0 : Z) = 1).
Proof.
  apply (reachable_store_shape (run two_days (create_table None))
           (mkRow 3 (py "Pay rent") (py "Low") 0 (py "2024-01-01") (py "t2"))).
  - exists two_days; reflexivity.
  - vm_compute. apply list_elem_of_further, list_elem_of_here.
Defined.

(** ** What an update does to the listings *)

(** X9.  After [update_task i b], a row with identifier [i] and date [D]
    is listed for [D] under the filter of its new flag (["COMPLETED"] for
    [True], ["PENDING"] for [False]), with the flag of [b] and its title
    and priority, and no row with identifier [i] is listed under the other
    of the two filters. *)
Theorem update_task_listed (i : Z) (b : bool) (D : str) (s : Store) (r : Row) :
  r ∈ tasks s → id r = i → task_date r = D →
  (i, title r, priority r, int b)
    ∈ get_tasks D (if b then py "COMPLETED" else py "PENDING")
        (update_task i b s)
  ∧ (∀ x, x ∈ get_tasks D (if b then py "PENDING" else py "COMPLETED")
                (update_task i b s) → listed_id x ≠ i).
Proof.
  intros Hr Hid Hd. split.
  - apply elem_of_get_tasks. exists (set_is_completed (int b) r).
    split; [|by destruct b; subst; repeat split].
    rewrite tasks_update_task.
    apply (list_elem_of_fmap_2' _ _ r); [done|]. by rewrite decide_True.
  - intros x (r' & Hr' & -> & _ & Hc & Hp)%elem_of_get_tasks Hx.
    apply elem_of_update_task in Hr' as (r0 & _ & (Hid0 & _) & Hflag & _).
    change (id r' = i) in Hx. rewrite Hflag in Hc, Hp by congruence.
    destruct b; [by specialize (Hp eq_refl) | by specialize (Hc eq_refl)].
Qed.

Lemma update_task_listed_witness :
  (3, py "Pay rent", py "Low", int true)
    ∈ get_tasks (py "2024-01-01") (py "COMPLETED")
        (update_task 3 true (run two_days (create_table None))).
Proof.
  apply (update_task_listed 3 true (py "2024-01-01")
           (run two_days (create_table None))
           (mkRow 3 (py "Pay rent") (py "Low") 0 (py "2024-01-01") (py "t2"))).
  - vm_compute. apply list_elem_of_further, list_elem_of_here.
  - reflexivity.
  - reflexivity.
Defined.

(** X10.  Under the filter ["ALL"] an [update_task] neither adds, removes
    nor reorders anything: the listing shows the same identifiers, titles
    and priorities in the same places (only flags can differ). *)
Theorem update_task_keeps_all_listing (i : Z) (b : bool) (D : str) (s : Store) :
  fst <$> get_tasks D (py "ALL") (update_task i b s)
  = fst <$> get_tasks D (py "ALL") s.
Proof.
  rewrite !get_tasks_all, tasks_update_task.
  rewrite (filter_fmap_same (λ r, task_date r = D)) by (intros r; by case_decide).
  rewrite <- !list_fmap_compose. apply list_fmap_ext. intros _ r _; simpl.
  by case_decide.
Qed.

(** * Further properties of the controller and its rows *)

Lemma filter_fmap {A B : Type} (f : A → B) (P : B → Prop)
    `{!∀ y, Decision (P y)} (l : list A) :
  filter P (f <$> l) = f <$> filter (λ x, P (f x)) l.
Proof.
  induction l as [|a l IH]; [done|].
  rewrite fmap_cons, !filter_cons.
  destruct (decide (P (f a))); by rewrite ?fmap_cons, IH.
Qed.

Lemma tasks_column_load_tasks (self : TaskManagerApp.t) :
  TaskManagerApp.tasks_column (TaskManagerApp.load_tasks self)
  = item_of <$> get_tasks (TaskManagerApp.selected_date self)
                  (TaskManagerApp.current_filter self)
                  (TaskManagerApp.db self).
Proof. reflexivity. Qed.

Lemma in_sync_items (self : TaskManagerApp.t) :
  in_sync self →
  TaskManagerApp.tasks_column self
  = item_of <$> get_tasks (TaskManagerApp.selected_date self)
                  (TaskManagerApp.current_filter self)
                  (TaskManagerApp.db self).
Proof. done. Qed.

Lemma task_id_item_of (x : Z * str * str * Z) :
  TaskItem.task_id (item_of x) = listed_id x.
Proof. by destruct x as [[[i t] p] c]. Qed.

Lemma in_sync_load_tasks (self : TaskManagerApp.t) :
  in_sync (TaskManagerApp.load_tasks self).
Proof. reflexivity. Qed.

(** X12.  The list on screen is never stale: it is the listing of the store
    for the selected date and filter after the constructor and after every
    handler, given that it was before the handler ran. *)
Theorem handlers_keep_in_sync (now : str) (item : TaskItem.t) (index : Z)
    (picked today : date) (file : option Store) (self : TaskManagerApp.t)
    (date_label : str) :
  in_sync self →
  in_sync (TaskManagerApp.app (TaskManagerApp.init file today))
  ∧ in_sync (TaskManagerApp.add_task now self)
  ∧ in_sync (TaskManagerApp.toggle_item item self)
  ∧ in_sync (TaskManagerApp.delete_item item self)
  ∧ in_sync (TaskManagerApp.app
               (TaskManagerApp.change_date picked
                  (TaskManagerApp.mk_window self date_label)))
  ∧ (∀ self', TaskManagerApp.change_filter index self = Some self' →
              in_sync self').
Proof.
  intros Hsync. repeat split.
  - unfold TaskManagerApp.add_task. by case (negb _).
  - intros self'. unfold TaskManagerApp.change_filter.
    destruct (TaskManagerApp.index3 index); [|done]. by intros [= <-].
Qed.

Lemma handlers_keep_in_sync_witness :
  in_sync
    (TaskManagerApp.add_task (py "t1")
       (TaskManagerApp.mk milk (py "2024-01-01") (py "ALL") (py " ")
          (py "Medium")
          [TaskItem.mk 1 (py "[Medium] Buy milk") false (Some (py "orange"))
             false])).
Proof.
  destruct (handlers_keep_in_sync (py "t1")
              (TaskItem.mk 1 (py "[Medium] Buy milk") false
                 (Some (py "orange")) false)
              0 (mkDate 2024 1 1) (mkDate 2024 1 1) None
              (TaskManagerApp.mk milk (py "2024-01-01") (py "ALL") (py " ")
                 (py "Medium")
                 [TaskItem.mk 1 (py "[Medium] Buy milk") false
                    (Some (py "orange")) false])
              (py "2024-01-01")) as (_ & Hadd & _).
  - reflexivity.
  - exact Hadd.
Defined.

(** X13.  On a screen that shows a state of the store no two rows answer
    to the same identifier. *)
Theorem visible_ids_unique (self : TaskManagerApp.t) :
  in_sync self → reachable (TaskManagerApp.db self) →
  NoDup (TaskItem.task_id <$> TaskManagerApp.tasks_column self).
Proof.
  intros Hsync [Hsorted _ _ _]%reachable_schema_inv.
  rewrite (in_sync_items _ Hsync), <- list_fmap_compose.
  rewrite (list_fmap_ext _ listed_id) by (intros _ x _; apply task_id_item_of).
  apply StronglySorted_lt_NoDup.
  eapply StronglySorted_sublist; [apply listed_ids_sublist | exact Hsorted].
Qed.

Lemma visible_ids_unique_witness :
  NoDup
    (TaskItem.task_id
     <$> TaskManagerApp.tasks_column
           (TaskManagerApp.load_tasks
              (TaskManagerApp.mk (run two_days (create_table None))
                 (py "2024-01-01") (py "ALL") [] (py "Medium") []))).
Proof.
  apply visible_ids_unique.
  - reflexivity.
  - exists two_days; reflexivity.
Defined.

(** ** What the handlers do to the list on screen *)

Lemma get_tasks_one_row (D f : str) (r : Row) (n : Z) :
  get_tasks D f (mkStore [r] n)
  = if decide (task_date r = D
               ∧ (f = py "COMPLETED" → is_completed r = 1)
               ∧ (f = py "PENDING" → is_completed r = 0))
    then [columns r] else [].
Proof.
  pose proof py_completed_ne_pending as Hne.
  unfold get_tasks, select; simpl.
  repeat case_decide; subst; rewrite filter_cons, ?filter_nil;
    case_decide; naive_solver.
Qed.

(** X14.  With a title that is not blank, on a screen in step with the
    store, the add-task action leaves the rows on screen as they are and,
    unless the filter is ["COMPLETED"], puts one row below them: unchecked,
    under a new identifier, labelled with the selected priority and the
    trimmed title.  Under ["COMPLETED"] the new task is stored but no row
    appears. *)
Theorem add_task_on_screen (now : str) (self : TaskManagerApp.t) :
  in_sync self →
  forallb isspace (TaskManagerApp.task_input self) = false →
  TaskManagerApp.tasks_column (TaskManagerApp.add_task now self)
  = TaskManagerApp.tasks_column self
    ++ (if decide (TaskManagerApp.current_filter self = py "COMPLETED")
        then []
        else [TaskItem.init (next_rowid (TaskManagerApp.db self))
                (strip (TaskManagerApp.task_input self))
                (TaskManagerApp.priority_dropdown self) 0]).
Proof.
  intros Hsync Hblank. rewrite (in_sync_items _ Hsync) at 1.
  unfold TaskManagerApp.add_task.
  destruct (strip (TaskManagerApp.task_input self)) as [|c t] eqn:Hs.
  { apply strip_nil in Hs. congruence. }
  simpl negb. cbv iota. rewrite tasks_column_load_tasks; simpl.
  rewrite (get_tasks_app _ _ _ (TaskManagerApp.db self)
             (mkStore [mkRow (next_rowid (TaskManagerApp.db self)) (c :: t)
                         (TaskManagerApp.priority_dropdown self) 0
                         (TaskManagerApp.selected_date self) now] 0))
    by apply tasks_add_task.
  rewrite fmap_app, get_tasks_one_row. f_equal; simpl.
  destruct (decide (TaskManagerApp.current_filter self = py "COMPLETED"))
    as [Hc|Hc].
  - rewrite decide_False; [done|]. intros (_ & Hflag & _).
    by specialize (Hflag Hc).
  - by rewrite decide_True.
Qed.

Lemma add_task_on_screen_witness :
  TaskManagerApp.tasks_column
    (TaskManagerApp.add_task (py "t1")
       (TaskManagerApp.mk milk (py "2024-01-01") (py "PENDING")
          (py " Call Bob ") (py "High")
          [TaskItem.mk 1 (py "[Medium] Buy milk") false (Some (py "orange"))
             false]))
  = [ TaskItem.mk 1 (py "[Medium] Buy milk") false (Some (py "orange")) false;
      TaskItem.mk 2 (py "[High] Call Bob") false (Some (py "red")) false ].
Proof.
  rewrite add_task_on_screen; reflexivity.
Defined.

Lemma get_tasks_delete_task (D f : str) (i : Z) (s : Store) :
  get_tasks D f (delete_task i s)
  = filter (λ x, listed_id x ≠ i) (get_tasks D f s).
Proof.
  unfold get_tasks, select, delete_task; simpl.
  repeat case_decide; rewrite filter_fmap, !list_filter_filter; f_equal;
    apply list_filter_iff; intros r; unfold listed_id; simpl; tauto.
Qed.

(** X15.  On a screen in step with the store, the delete action of a row
    takes off the screen the row with its identifier and leaves every
    other row as it is and where it is. *)
Theorem delete_item_on_screen (item : TaskItem.t) (self : TaskManagerApp.t) :
  in_sync self →
  TaskManagerApp.tasks_column (TaskManagerApp.delete_item item self)
  = filter (λ it, TaskItem.task_id it ≠ TaskItem.task_id item)
      (TaskManagerApp.tasks_column self).
Proof.
  intros Hsync. rewrite (in_sync_items _ Hsync).
  unfold TaskManagerApp.delete_item, TaskItem.delete.
  rewrite tasks_column_load_tasks; simpl.
  rewrite get_tasks_delete_task, filter_fmap. f_equal.
  apply list_filter_iff. intros x. by rewrite task_id_item_of.
Qed.

Lemma delete_item_on_screen_witness :
  TaskManagerApp.tasks_column
    (TaskManagerApp.delete_item
       (TaskItem.mk 1 (py "[Medium] Buy milk") true (Some (py "orange")) true)
       (TaskManagerApp.load_tasks
          (TaskManagerApp.mk (run two_days (create_table None))
             (py "2024-01-01") (py "ALL") [] (py "Medium") [])))
  = [TaskItem.mk 3 (py "[Low] Pay rent") false (Some (py "green")) false].
Proof.
  rewrite delete_item_on_screen; reflexivity.
Defined.

Lemma get_tasks_update_unfiltered (D f : str) (i : Z) (b : bool) (s : Store) :
  f ≠ py "COMPLETED" → f ≠ py "PENDING" →
  get_tasks D f (update_task i b s)
  = (λ x, if decide (listed_id x = i) then (x.1, int b) else x)
    <$> get_tasks D f s.
Proof.
  intros Hc Hp. unfold get_tasks, select. rewrite !decide_False by done.
  rewrite tasks_update_task.
  rewrite (filter_fmap_same (λ r, task_date r = D)) by (intros r; by case_decide).
  rewrite <- !list_fmap_compose. apply list_fmap_ext. intros _ r _; simpl.
  unfold listed_id; simpl. by case_decide.
Qed.

(** X16.  On a screen in step with the store and under a filter that does
    not narrow (["ALL"]), toggling a row keeps every row where it is; the
    rows with the identifier of the toggled one take the value of its
    checkbox, as check mark and as strike-through, and keep their label
    and colour; the other rows are unchanged. *)
Theorem toggle_item_on_screen (item : TaskItem.t) (self : TaskManagerApp.t) :
  in_sync self →
  TaskManagerApp.current_filter self ≠ py "COMPLETED" →
  TaskManagerApp.current_filter self ≠ py "PENDING" →
  TaskManagerApp.tasks_column (TaskManagerApp.toggle_item item self)
  = (λ it, if decide (TaskItem.task_id it = TaskItem.task_id item)
           then with_checked (TaskItem.checkbox_value item) it else it)
    <$> TaskManagerApp.tasks_column self.
Proof.
  intros Hsync Hc Hp. rewrite (in_sync_items _ Hsync).
  unfold TaskManagerApp.toggle_item, TaskItem.toggle.
  rewrite tasks_column_load_tasks; simpl.
  rewrite get_tasks_update_unfiltered by done.
  rewrite <- !list_fmap_compose. apply list_fmap_ext.
  intros _ [[[i t] p] c] _; simpl. unfold listed_id; simpl.
  case_decide; [|done].
  unfold with_checked, TaskItem.init; simpl.
  by destruct (TaskItem.checkbox_value item).
Qed.

Lemma toggle_item_on_screen_witness :
  TaskManagerApp.tasks_column
    (TaskManagerApp.toggle_item
       (TaskItem.mk 3 (py "[Low] Pay rent") true (Some (py "green")) false)
       (TaskManagerApp.load_tasks
          (TaskManagerApp.mk (run two_days (create_table None))
             (py "2024-01-01") (py "ALL") [] (py "Medium") [])))
  = [ TaskItem.mk 1 (py "[Medium] Buy milk") true (Some (py "orange")) true;
      TaskItem.mk 3 (py "[Low] Pay rent") true (Some (py "green")) true ].
Proof.
  rewrite toggle_item_on_screen; [reflexivity | reflexivity | | ]; discriminate.
Defined.

(** X17.  On a screen in step with the store, every row under the filter
    ["COMPLETED"] is checked and struck through, and every row under the
    filter ["PENDING"] is neither. *)
Theorem narrowed_rows_match (self : TaskManagerApp.t) (it : TaskItem.t) :
  in_sync self → it ∈ TaskManagerApp.tasks_column self →
  (TaskManagerApp.current_filter self = py "COMPLETED" →
   TaskItem.checkbox_value it = true ∧ TaskItem.label_line_through it = true)
  ∧ (TaskManagerApp.current_filter self = py "PENDING" →
     TaskItem.checkbox_value it = false
     ∧ TaskItem.label_line_through it = false).
Proof.
  intros Hsync Hit. rewrite (in_sync_items _ Hsync) in Hit.
  apply list_elem_of_fmap in Hit as (x & -> & Hx).
  apply elem_of_get_tasks in Hx as (r & _ & -> & _ & Hc & Hp).
  split; intros Hf; simpl.
  - by rewrite (Hc Hf).
  - by rewrite (Hp Hf).
Qed.

Lemma narrowed_rows_match_witness :
  TaskItem.checkbox_value
    (TaskItem.mk 1 (py "[Medium] Buy milk") true (Some (py "orange")) true)
  = true.
Proof.
  destruct (narrowed_rows_match
              (TaskManagerApp.load_tasks
                 (TaskManagerApp.mk (run two_days (create_table None))
                    (py "2024-01-01") (py "COMPLETED") [] (py "Medium") []))
              (TaskItem.mk 1 (py "[Medium] Buy milk") true
                 (Some (py "orange")) true)) as [Hc _].
  - reflexivity.
  - vm_compute. apply list_elem_of_here.
  - by destruct Hc.
Defined.

(** X18.  Toggling a row out of the filter takes it off the screen:
    after unchecking under ["COMPLETED"], or checking under ["PENDING"],
    no row on screen has the identifier of the toggled row. *)
Theorem toggle_item_leaves_tab (item it : TaskItem.t)
    (self : TaskManagerApp.t) :
  (TaskManagerApp.current_filter self = py "COMPLETED"
   ∧ TaskItem.checkbox_value item = false)
  ∨ (TaskManagerApp.current_filter self = py "PENDING"
     ∧ TaskItem.checkbox_value item = true) →
  it ∈ TaskManagerApp.tasks_column (TaskManagerApp.toggle_item item self) →
  TaskItem.task_id it ≠ TaskItem.task_id item.
Proof.
  intros Hout Hit Hid.
  unfold TaskManagerApp.toggle_item, TaskItem.toggle in Hit.
  rewrite tasks_column_load_tasks in Hit; simpl in Hit.
  apply list_elem_of_fmap in Hit as (x & -> & Hx).
  rewrite task_id_item_of in Hid.
  apply elem_of_get_tasks in Hx as (r & Hr & -> & _ & Hc & Hp).
  change (id r = TaskItem.task_id item) in Hid.
  apply elem_of_update_task in Hr as (r0 & _ & (Hid0 & _) & Hflag & _).
  rewrite Hflag in Hc, Hp by congruence.
  destruct Hout as [[Hf Hv]|[Hf Hv]]; rewrite Hv in *.
  - by specialize (Hc Hf).
  - by specialize (Hp Hf).
Qed.

Lemma toggle_item_leaves_tab_witness :
  TaskItem.task_id
    (TaskItem.mk 3 (py "[Low] Pay rent") false (Some (py "green")) false)
  ≠ TaskItem.task_id
      (TaskItem.mk 1 (py "[Medium] Buy milk") true (Some (py "orange")) true).
Proof.
  apply (toggle_item_leaves_tab _ _
           (TaskManagerApp.load_tasks
              (TaskManagerApp.mk (run two_days (create_table None))
                 (py "2024-01-01") (py "PENDING") [] (py "Medium") []))).
  - right. split; reflexivity.
  - vm_compute. apply list_elem_of_here.
Defined.

(** ** The filter tabs *)

(** X19.  The filter-change action fails (the list index is out of range)
    exactly for an index below -3 or above 2.  Otherwise it selects
    ["ALL"], ["COMPLETED"] or ["PENDING"] for an index that is 0, 1 or 2
    modulo 3 (a negative index counts from the end), and leaves the store,
    the date, the input field and the priority alone. *)
Theorem change_filter_index (index : Z) (self : TaskManagerApp.t) :
  (TaskManagerApp.change_filter index self = None ↔ index < -3 ∨ 3 ≤ index)
  ∧ (∀ self', TaskManagerApp.change_filter index self = Some self' →
       [py "ALL"; py "COMPLETED"; py "PENDING"] !! Z.to_nat (index `mod` 3)
       = Some (TaskManagerApp.current_filter self')
       ∧ TaskManagerApp.db self' = TaskManagerApp.db self
       ∧ TaskManagerApp.selected_date self' = TaskManagerApp.selected_date self
       ∧ TaskManagerApp.task_input self' = TaskManagerApp.task_input self
       ∧ TaskManagerApp.priority_dropdown self'
         = TaskManagerApp.priority_dropdown self).
Proof.
  destruct (decide (index < -3 ∨ 3 ≤ index)) as [Hout|Hin].
  - assert (TaskManagerApp.change_filter index self = None) as Hnone.
    { unfold TaskManagerApp.change_filter, TaskManagerApp.index3.
      destruct (Z.leb_spec 0 index), (Z.ltb_spec index 3),
        (Z.leb_spec (-3) index), (Z.ltb_spec index 0); simpl; try lia; done. }
    rewrite Hnone. split; [done|]. by intros self'.
  - assert (index = -3 ∨ index = -2 ∨ index = -1
            ∨ index = 0 ∨ index = 1 ∨ index = 2) as Hcases by lia.
    split.
    + split; [|done].
      destruct Hcases as [->|[->|[->|[->|[->| ->]]]]]; discriminate.
    + intros self'.
      destruct Hcases as [->|[->|[->|[->|[->| ->]]]]];
        intros [= <-]; by repeat split.
Qed.

Example change_filter_last_tab :
  TaskManagerApp.current_filter
  <$> TaskManagerApp.change_filter (-1)
        (TaskManagerApp.mk milk (py "2024-01-01") (py "ALL") [] (py "Medium") [])
  = Some (py "PENDING")
  ∧ TaskManagerApp.change_filter 3
      (TaskManagerApp.mk milk (py "2024-01-01") (py "ALL") [] (py "Medium") [])
    = None.
Proof. split; reflexivity. Qed.

(** ** The row widget *)

(** X20.  A row widget is checked exactly when the stored flag is not 0,
    and struck through exactly when it is checked.  Its label has a colour
    exactly when the priority is ["Low"], ["Medium"] or ["High"]; for any
    other priority the colour is absent (the look-up does not fail). *)
Theorem task_item_init (i c : Z) (t p : str) :
  (TaskItem.checkbox_value (TaskItem.init i t p c) = true ↔ c ≠ 0)
  ∧ TaskItem.label_line_through (TaskItem.init i t p c)
    = TaskItem.checkbox_value (TaskItem.init i t p c)
  ∧ (TaskItem.label_color (TaskItem.init i t p c) = None ↔
     p ≠ py "Low" ∧ p ≠ py "Medium" ∧ p ≠ py "High").
Proof.
  split; [|split; [done|]].
  - simpl. unfold bool_of_int. destruct (Z.eqb_spec c 0); simpl; split;
      intros; done.
  - simpl. unfold TaskItem.PRIORITY_COLORS; simpl.
    repeat case_decide; subst; split; try done; naive_solver.
Qed.

(** ** Titles *)

Lemma lstrip_split (s : str) :
  ∃ l, s = l ++ lstrip s ∧ forallb isspace l = true.
Proof.
  induction s as [|c s (l & Hl & Hws)]; [by exists []|]. simpl.
  destruct (isspace c) eqn:Hc.
  - exists (c :: l). simpl. rewrite Hc, Hws. split; [by f_equal|done].
  - by exists [].
Qed.

Lemma rstrip_split (s : str) :
  ∃ r, s = rstrip s ++ r ∧ forallb isspace r = true.
Proof.
  destruct (lstrip_split (reverse s)) as (l & Hl & Hws).
  exists (reverse l). split; [|by rewrite forallb_reverse].
  unfold rstrip. by rewrite <- reverse_app, <- Hl, reverse_involutive.
Qed.

Lemma rstrip_last (s : str) (c : N) :
  last (rstrip s) = Some c → isspace c = false.
Proof.
  unfold rstrip. rewrite last_reverse. intros (s' & Hs')%head_Some.
  by eapply lstrip_head.
Qed.

(** [strip] takes white space off both ends and nothing else. *)
Lemma strip_split (s : str) :
  ∃ l r, s = l ++ strip s ++ r
         ∧ forallb isspace l = true ∧ forallb isspace r = true.
Proof.
  destruct (lstrip_split s) as (l & Hl & Hwl).
  destruct (rstrip_split (lstrip s)) as (r & Hr & Hwr).
  exists l, r. unfold strip. by rewrite <- Hr.
Qed.

Lemma strip_trimmed (s : str) : strip s ≠ [] → trimmed (strip s).
Proof.
  intros Hne. split; [done|]. split.
  - intros c (t & Ht)%head_Some.
    destruct (rstrip_split (lstrip s)) as (r & Hr & _).
    fold (strip s) in Hr. rewrite Ht in Hr. by eapply lstrip_head.
  - apply rstrip_last.
Qed.

(** X21.  With an input that is not blank, the add-task action stores one
    more row, at the end of the table: under the next identifier, with the
    selected priority and date and the flag 0, and with the input less the
    white space at its two ends as title; that title is not empty and has
    no white space at either end. *)
Theorem add_task_stores_trimmed (now : str) (self : TaskManagerApp.t) :
  forallb isspace (TaskManagerApp.task_input self) = false →
  tasks (TaskManagerApp.db (TaskManagerApp.add_task now self))
  = tasks (TaskManagerApp.db self)
    ++ [mkRow (next_rowid (TaskManagerApp.db self))
          (strip (TaskManagerApp.task_input self))
          (TaskManagerApp.priority_dropdown self) 0
          (TaskManagerApp.selected_date self) now]
  ∧ trimmed (strip (TaskManagerApp.task_input self))
  ∧ ∃ l r, TaskManagerApp.task_input self
           = l ++ strip (TaskManagerApp.task_input self) ++ r
           ∧ forallb isspace l = true ∧ forallb isspace r = true.
Proof.
  intros Hblank.
  assert (strip (TaskManagerApp.task_input self) ≠ []) as Hne.
  { intros Hs%strip_nil. congruence. }
  split; [|split; [by apply strip_trimmed | apply strip_split]].
  unfold TaskManagerApp.add_task.
  destruct (strip (TaskManagerApp.task_input self)) as [|c t]; [done|].
  simpl negb. cbv iota. simpl TaskManagerApp.db. apply tasks_add_task.
Qed.

Lemma add_task_stores_trimmed_witness :
  tasks (TaskManagerApp.db
           (TaskManagerApp.add_task (py "t1")
              (TaskManagerApp.mk milk (py "2024-01-02") (py "ALL")
                 ([9; 32]%N ++ py "Call  Bob" ++ [10]%N) (py "High") [])))
  = tasks milk
    ++ [mkRow 2 (py "Call  Bob") (py "High") 0 (py "2024-01-02") (py "t1")].
Proof.
  destruct (add_task_stores_trimmed (py "t1")
              (TaskManagerApp.mk milk (py "2024-01-02") (py "ALL")
                 ([9; 32]%N ++ py "Call  Bob" ++ [10]%N) (py "High") []))
    as [Hrows _]; [reflexivity|].
  exact Hrows.
Defined.

Lemma titles_trimmed_update_task (i : Z) (b : bool) (s : Store) :
  titles_trimmed s → titles_trimmed (update_task i b s).
Proof.
  intros Hall. apply Forall_forall.
  intros r' (r & Hr & (_ & Ht & _) & _)%elem_of_update_task.
  rewrite Ht. by apply (proj1 (Forall_forall _ _) Hall).
Qed.

Lemma titles_trimmed_delete_task (i : Z) (s : Store) :
  titles_trimmed s → titles_trimmed (delete_task i s).
Proof. apply Forall_sublist, delete_task_sublist. Qed.

(** X22.  The controller keeps every stored title trimmed: if no title of
    the store is empty or has white space at an end, the same holds after
    the add-task action, whatever the input field holds, and after the
    toggle, delete, filter-change and date-change actions. *)
Theorem titles_stay_trimmed (now : str) (item : TaskItem.t) (index : Z)
    (picked : date) (date_label : str) (self : TaskManagerApp.t) :
  titles_trimmed (TaskManagerApp.db self) →
  titles_trimmed (TaskManagerApp.db (TaskManagerApp.add_task now self))
  ∧ titles_trimmed (TaskManagerApp.db (TaskManagerApp.toggle_item item self))
  ∧ titles_trimmed (TaskManagerApp.db (TaskManagerApp.delete_item item self))
  ∧ titles_trimmed
      (TaskManagerApp.db
         (TaskManagerApp.app
            (TaskManagerApp.change_date picked
               (TaskManagerApp.mk_window self date_label))))
  ∧ (∀ self', TaskManagerApp.change_filter index self = Some self' →
              titles_trimmed (TaskManagerApp.db self')).
Proof.
  intros Hall. split; [|split; [|split; [|split]]].
  - destruct (forallb isspace (TaskManagerApp.task_input self)) eqn:Hblank.
    + apply strip_nil in Hblank. unfold TaskManagerApp.add_task.
      by rewrite Hblank.
    + destruct (add_task_titled now self Hblank) as [-> _].
      unfold titles_trimmed. rewrite tasks_add_task.
      apply Forall_app; split; [done|]. constructor; [simpl|constructor].
      apply strip_trimmed. intros Hs%strip_nil. congruence.
  - by apply titles_trimmed_update_task.
  - by apply titles_trimmed_delete_task.
  - done.
  - intros self'. unfold TaskManagerApp.change_filter.
    destruct (TaskManagerApp.index3 index); [|done]. by intros [= <-].
Qed.

Lemma titles_stay_trimmed_witness :
  titles_trimmed
    (TaskManagerApp.db
       (TaskManagerApp.add_task (py "t1")
          (TaskManagerApp.mk milk (py "2024-01-02") (py "ALL")
             (py " Call Bob ") (py "High") []))).
Proof.
  destruct (titles_stay_trimmed (py "t1")
              (TaskItem.mk 1 (py "[Medium] Buy milk") true
                 (Some (py "orange")) false)
              0 (mkDate 2024 1 2) (py "2024-01-01")
              (TaskManagerApp.mk milk (py "2024-01-02") (py "ALL")
                 (py " Call Bob ") (py "High") [])) as [Hadd _].
  - repeat constructor; simpl; try discriminate; by intros c [= <-].
  - exact Hadd.
Defined.

(** ** Dates as text *)

Lemma decimal_small (n : Z) : 0 ≤ n ≤ 9 → decimal n = [digit n].
Proof.
  intros Hn. unfold decimal; simpl.
  destruct (Z.ltb_spec n 10); [done|lia].
Qed.

Lemma decimal_two (n : Z) :
  10 ≤ n ≤ 99 → decimal n = [digit (n / 10); digit n].
Proof.
  intros Hn. unfold decimal.
  assert (3 ≤ Z.log2 n) as Hlog
    by (change 3 with (Z.log2 8); apply Z.log2_le_mono; lia).
  destruct (Z.to_nat (Z.log2 n)) as [|k] eqn:Hk; [lia|]. simpl.
  destruct (Z.ltb_spec n 10); [lia|].
  destruct (Z.ltb_spec (n / 10) 10); [done|div10].
Qed.

Lemma decimal_four (n : Z) :
  1000 ≤ n ≤ 9999 →
  decimal n
  = [digit (n / 10 / 10 / 10); digit (n / 10 / 10); digit (n / 10); digit n].
Proof.
  intros Hn. unfold decimal.
  assert (9 ≤ Z.log2 n) as Hlog
    by (change 9 with (Z.log2 512); apply Z.log2_le_mono; lia).
  destruct (Z.to_nat (Z.log2 n)) as [|[|[|k]]] eqn:Hk; [lia..|]. simpl.
  destruct (Z.ltb_spec n 10); [lia|].
  destruct (Z.ltb_spec (n / 10) 10); [div10|].
  destruct (Z.ltb_spec (n / 10 / 10) 10); [div10|].
  destruct (Z.ltb_spec (n / 10 / 10 / 10) 10); [done|div10].
Qed.

Lemma zero_pad_two (n : Z) :
  0 ≤ n ≤ 99 → zero_pad 2 (decimal n) = [digit (n / 10); digit n].
Proof.
  intros Hn. destruct (Z.lt_ge_cases n 10).
  - rewrite decimal_small by lia. unfold zero_pad; simpl.
    replace (n / 10) with 0 by div10. done.
  - by rewrite decimal_two by lia.
Qed.

(** Both ways of writing a date of four-digit year give the ten
    characters [YYYY-MM-DD]. *)
Lemma date_text (d : date) :
  four_digit_date d →
  strftime_Ymd d
  = [digit (year d / 10 / 10 / 10); digit (year d / 10 / 10);
     digit (year d / 10); digit (year d); 45%N;
     digit (month d / 10); digit (month d); 45%N;
     digit (day d / 10); digit (day d)]
  ∧ isoformat d = strftime_Ymd d.
Proof.
  intros (Hy & Hm & Hd). unfold isoformat, strftime_Ymd.
  rewrite !zero_pad_two, decimal_four by lia. done.
Qed.

Lemma digit_inj (a b : Z) : digit a = digit b → a `mod` 10 = b `mod` 10.
Proof.
  unfold digit. intros Heq%(f_equal Z.of_N).
  rewrite !Z2N.id in Heq by div10. lia.
Qed.

Lemma strftime_Ymd_inj (d1 d2 : date) :
  four_digit_date d1 → four_digit_date d2 →
  strftime_Ymd d1 = strftime_Ymd d2 → d1 = d2.
Proof.
  intros H1 H2 Heq.
  rewrite (proj1 (date_text d1 H1)), (proj1 (date_text d2 H2)) in Heq.
  destruct H1 as (Hy1 & Hm1 & Hd1), H2 as (Hy2 & Hm2 & Hd2).
  destruct d1 as [y1 m1 a1], d2 as [y2 m2 a2]; simpl in *.
  injection Heq as Y3 Y2 Y1 Y0 M1 M0 D1 D0.
  apply digit_inj in Y3, Y2, Y1, Y0, M1, M0, D1, D0.
  f_equal; div10.
Qed.

(** X23.  For a date of four-digit year the text the date-change action
    selects is the text the constructor selects for the same day, ten
    characters long; so picking today's date on the freshly started
    controller changes nothing. *)
Theorem today_repicked (file : option Store) (today : date) :
  four_digit_date today →
  strftime_Ymd today = isoformat today
  ∧ length (strftime_Ymd today) = 10%nat
  ∧ TaskManagerApp.change_date today (TaskManagerApp.init file today)
    = TaskManagerApp.init file today.
Proof.
  intros Hd. destruct (date_text today Hd) as [Htext Hiso].
  split; [done|split].
  - by rewrite Htext.
  - unfold TaskManagerApp.change_date, TaskManagerApp.init; simpl.
    by rewrite Hiso.
Qed.

Lemma today_repicked_witness :
  strftime_Ymd (mkDate 2024 1 1) = py "2024-01-01"
  ∧ TaskManagerApp.change_date (mkDate 2024 1 1)
      (TaskManagerApp.init (Some milk) (mkDate 2024 1 1))
    = TaskManagerApp.init (Some milk) (mkDate 2024 1 1).
Proof.
  destruct (today_repicked (Some milk) (mkDate 2024 1 1)) as (_ & _ & Hsame).
  - unfold four_digit_date; simpl; lia.
  - split; [reflexivity | exact Hsame].
Defined.

(** X24.  Dates of four-digit year are told apart by their text: the
    date-change action selects the same text for two dates only if they
    are the same date. *)
Theorem picked_dates_distinct (d1 d2 : date) (w : TaskManagerApp.window) :
  four_digit_date d1 → four_digit_date d2 →
  TaskManagerApp.selected_date
    (TaskManagerApp.app (TaskManagerApp.change_date d1 w))
  = TaskManagerApp.selected_date
      (TaskManagerApp.app (TaskManagerApp.change_date d2 w)) →
  d1 = d2.
Proof. simpl. apply strftime_Ymd_inj. Qed.

Lemma picked_dates_distinct_witness :
  mkDate 2024 1 1 = mkDate 2024 1 1.
Proof.
  apply (picked_dates_distinct _ _
           (TaskManagerApp.init None (mkDate 2023 12 31))).
  - unfold four_digit_date; simpl; lia.
  - unfold four_digit_date; simpl; lia.
  - reflexivity.
Defined.

Lemma get_tasks_add_other_date (t p D1 D2 f now : str) (s : Store) :
  D1 ≠ D2 → get_tasks D2 f (add_task t p D1 now s) = get_tasks D2 f s.
Proof.
  intros Hne.
  rewrite (get_tasks_app D2 _ _ s
             (mkStore [mkRow (next_rowid s) t p 0 D1 now] 0))
    by apply tasks_add_task.
  rewrite get_tasks_one_row, decide_False, app_nil_r; [done|].
  simpl. by intros [? _].
Qed.

(** X25.  What is added while one day is selected does not show under
    another day: picking a date, running the add-task action and picking a
    different date puts on screen what picking that other date at once
    would have (dates of four-digit year). *)
Theorem add_under_other_date (now : str) (d1 d2 : date)
    (w : TaskManagerApp.window) :
  four_digit_date d1 → four_digit_date d2 → d1 ≠ d2 →
  TaskManagerApp.tasks_column
    (TaskManagerApp.app
       (TaskManagerApp.change_date d2
          (TaskManagerApp.mk_window
             (TaskManagerApp.add_task now
                (TaskManagerApp.app (TaskManagerApp.change_date d1 w)))
             (TaskManagerApp.date_text (TaskManagerApp.change_date d1 w)))))
  = TaskManagerApp.tasks_column
      (TaskManagerApp.app (TaskManagerApp.change_date d2 w)).
Proof.
  intros H1 H2 Hne.
  assert (strftime_Ymd d1 ≠ strftime_Ymd d2) as Htext
    by (intros Heq; by apply Hne, strftime_Ymd_inj).
  unfold TaskManagerApp.change_date at 1 3.
  cbn [TaskManagerApp.app]. rewrite !tasks_column_load_tasks.
  cbn [TaskManagerApp.db TaskManagerApp.selected_date
       TaskManagerApp.current_filter].
  unfold TaskManagerApp.add_task.
  destruct (negb (truthy (strip _))); [done|].
  cbn. f_equal. by apply get_tasks_add_other_date.
Qed.

Lemma add_under_other_date_witness :
  TaskManagerApp.tasks_column
    (TaskManagerApp.app
       (TaskManagerApp.change_date (mkDate 2024 1 1)
          (TaskManagerApp.mk_window
             (TaskManagerApp.add_task (py "t1")
                (TaskManagerApp.app
                   (TaskManagerApp.change_date (mkDate 2024 1 2)
                      (TaskManagerApp.mk_window
                         (TaskManagerApp.mk milk (py "2024-01-01") (py "ALL")
                            (py "Call Bob") (py "High") [])
                         (py "2024-01-01")))))
             (py "2024-01-02"))))
  = [TaskItem.mk 1 (py "[Medium] Buy milk") false (Some (py "orange")) false].
Proof.
  refine (add_under_other_date (py "t1") (mkDate 2024 1 2) (mkDate 2024 1 1)
            (TaskManagerApp.mk_window
               (TaskManagerApp.mk milk (py "2024-01-01") (py "ALL")
                  (py "Call Bob") (py "High") [])
               (py "2024-01-01")) _ _ _).
  - unfold four_digit_date; simpl; lia.
  - unfold four_digit_date; simpl; lia.
  - discriminate.
Defined.
